(** * The proxy sandbox of qiankun (src/sandbox/proxySandbox.ts)

    A shallow embedding of [createFakeWindow], of the class [ProxySandbox]
    (its [active] and [inactive] methods and its constructor) and of the
    handlers of the two proxies the constructor builds, followed by the
    properties of the handlers.

    The handlers are JavaScript functions running in strict code (the file
    is an ES module), over ordinary objects: an object is modelled by its
    own properties, each with its descriptor, and by the properties it
    inherits.  A handler either returns or raises; a call into a function
    that is not defined in the file (an accessor's setter, a method found
    where a built-in was expected) goes through the parameter [invoke].
    Most properties are about the handlers as the file defines them.
    What the engine does with the answer of a handler, comparing it with
    a property of the target that can be neither written nor
    reconfigured, is modelled apart, for the handle [proxy]: [Proxy_Get],
    [Proxy_Set] and [Proxy_Delete]. *)

From Stdlib Require Import ZArith String.
From stdpp Require Import base decidable countable option strings gmap fin_maps fin_sets.

Local Open Scope Z_scope.
Local Open Scope string_scope.

(** ** Values *)

(** Symbols used as property keys: [Symbol.unscopables], the symbol of
    [attachDocProxySymbol] and any other. *)
Inductive symbol :=
  | SymUnscopables
  | SymAttachDocProxy
  | SymOther (n : nat).

(** [PropertyKey]: a handler receives a string or a symbol (a number used
    as a key reaches it as a string). *)
Inductive key :=
  | KStr (s : string)
  | KSym (y : symbol).

(** Object identities.  [Proxy i] and [DocumentProxy i] are the two handles
    of the instance whose objects were allocated under [i]; [FakeWindow i]
    and [FakeDocument i] are their targets. *)
Inductive ref :=
  | RawWindow
  | RawDocument
  | FakeWindow (i : nat)
  | FakeDocument (i : nat)
  | Proxy (i : nat)
  | DocumentProxy (i : nat)
  | Unscopables
  | Heap (n : nat).

(** Functions: the built-in [Object.prototype.hasOwnProperty], the two
    closures of the constructor, any other function, and a function bound
    to a receiver. *)
Inductive fn :=
  | ObjectHasOwnProperty
  | HasOwnProperty (i : nat)
  | DocHasOwnProperty (i : nat)
  | Native (n : nat)
  | Bound (f : fn) (this : ref).

(** Numbers are the integer-valued ones and NaN. *)
Inductive value :=
  | VUndefined
  | VNull
  | VBool (b : bool)
  | VNum (z : Z)
  | VNaN
  | VStr (s : string)
  | VSym (y : symbol)
  | VRef (r : ref)
  | VFun (f : fn).

#[global] Instance symbol_eq_dec : EqDecision symbol.
Proof. solve_decision. Defined.
#[global] Instance key_eq_dec : EqDecision key.
Proof. solve_decision. Defined.
#[global] Instance ref_eq_dec : EqDecision ref.
Proof. solve_decision. Defined.
#[global] Instance fn_eq_dec : EqDecision fn.
Proof. solve_decision. Defined.
#[global] Instance value_eq_dec : EqDecision value.
Proof. solve_decision. Defined.

Definition symbol_code (y : symbol) : nat :=
  match y with
  | SymUnscopables => 0
  | SymAttachDocProxy => 1
  | SymOther n => S (S n)
  end.

Definition symbol_of_code (n : nat) : symbol :=
  match n with
  | O => SymUnscopables
  | S O => SymAttachDocProxy
  | S (S m) => SymOther m
  end.

#[global] Instance symbol_countable : Countable symbol :=
  inj_countable' symbol_code symbol_of_code
    (fun y => match y with SymUnscopables | SymAttachDocProxy | SymOther _ => eq_refl end).

Definition key_code (p : key) : string + symbol :=
  match p with KStr s => inl s | KSym y => inr y end.

Definition key_of_code (c : string + symbol) : key :=
  match c with inl s => KStr s | inr y => KSym y end.

#[global] Instance key_countable : Countable key :=
  inj_countable' key_code key_of_code
    (fun p => match p with KStr _ | KSym _ => eq_refl end).

Coercion KStr : string >-> key.

(** Modelled from the spec: [attachDocProxySymbol] of ./common, which is
    not among the sources, is the key under which a document proxy keeps
    its Attribution Tag, the handle it was last read from; as a symbol it
    differs from every string key. *)
Notation attachDocProxySymbol := (KSym SymAttachDocProxy).

(** ** Built-in operations on values *)

(** [ToBoolean], as [||] and [if] apply it. *)
Definition truthy (v : value) : bool :=
  match v with
  | VUndefined | VNull | VNaN => false
  | VBool b => b
  | VNum z => negb (z =? 0)%Z
  | VStr s => negb (bool_decide (s = EmptyString))
  | VSym _ | VRef _ | VFun _ => true
  end.

(** [a || b] *)
Definition or_else (a b : value) : value := if truthy a then a else b.

(** [a === b]: NaN differs from itself. *)
Definition strict_equal (a b : value) : bool :=
  match a with
  | VNaN => false
  | _ => bool_decide (a = b)
  end.

Definition key_value (p : key) : value :=
  match p with KStr s => VStr s | KSym y => VSym y end.

(** Modelled from the spec: [getTargetValue] of ./common, which is not
    among the sources.  A function-typed value is rebound so that its
    receiver is [target]; any other value is returned as it is. *)
Definition getTargetValue (target : ref) (v : value) : value :=
  match v with
  | VFun f => VFun (Bound f target)
  | _ => v
  end.

(** ** Objects *)

(** A property with its descriptor.  The getter of an accessor is
    modelled by the value it returns at present ([None]: no getter), its
    setter by the function to call. *)
Inductive property :=
  | Data (v : value) (writable enumerable configurable : bool)
  | Accessor (getter : option value) (setter : option fn) (enumerable configurable : bool).

Definition configurable (d : property) : bool :=
  match d with Data _ _ _ c => c | Accessor _ _ _ c => c end.

(** [Object.prototype.hasOwnProperty.call(descriptor, 'get')] *)
Definition hasGetter (d : property) : bool :=
  match d with Data _ _ _ _ => false | Accessor _ _ _ _ => true end.

(** An ordinary object: its own properties, what its prototype chain
    provides for the keys it does not own, and whether properties can
    still be added to it. *)
Record object := Object {
  own : gmap key property;
  inherited : gmap key property;
  extensible : bool }.

Definition with_own (m : gmap key property) (o : object) : object :=
  {| own := m; inherited := inherited o; extensible := extensible o |}.

(** An object literal [{...}] with the given own properties. *)
Definition literal (objectPrototype : gmap key property) (m : gmap key property) : object :=
  {| own := m; inherited := objectPrototype; extensible := true |}.

Definition lookup_property (o : object) (p : key) : option property :=
  match own o !! p with
  | Some d => Some d
  | None => inherited o !! p
  end.

(** [p in o] *)
Definition has_in (p : key) (o : object) : bool :=
  bool_decide (is_Some (lookup_property o p)).

(** The built-in [hasOwnProperty] applied to [o] *)
Definition owns (o : object) (p : key) : bool :=
  bool_decide (is_Some (own o !! p)).

(** [o[p]] *)
Definition read (o : object) (p : key) : value :=
  match lookup_property o p with
  | Some (Data v _ _ _) => v
  | Some (Accessor g _ _ _) => default VUndefined g
  | None => VUndefined
  end.

(** What [o[p] = v] amounts to on an ordinary object that is its own
    receiver: the value is stored in an own data property, or the
    assignment is refused, or it is handed to a setter. *)
Inductive assignment :=
  | Stored (o' : object)
  | Rejected
  | ToSetter (f : fn).

Definition assign (o : object) (p : key) (v : value) : assignment :=
  match own o !! p with
  | Some (Data _ w e c) =>
      if w then Stored (with_own (<[p := Data v w e c]> (own o)) o) else Rejected
  | Some (Accessor _ (Some f) _ _) => ToSetter f
  | Some (Accessor _ None _ _) => Rejected
  | None =>
      match inherited o !! p with
      | Some (Data _ false _ _) => Rejected
      | Some (Accessor _ (Some f) _ _) => ToSetter f
      | Some (Accessor _ None _ _) => Rejected
      | Some (Data _ true _ _) | None =>
          if extensible o
          then Stored (with_own (<[p := Data v true true true]> (own o)) o)
          else Rejected
      end
  end.

(** What [delete o[p]] amounts to: [None] when the property is owned and
    not configurable. *)
Definition remove (o : object) (p : key) : option object :=
  match own o !! p with
  | None => Some o
  | Some d => if configurable d then Some (with_own (delete p (own o)) o) else None
  end.

(** ** The environment and the module state *)

(** What the module finds around it: the global object [window], the
    document and the properties of [Object.prototype], the prototype of
    every object literal. *)
Record Env := {
  rawWindow : object;
  rawDocument : object;
  objectPrototype : gmap key property }.

(** Modelled from the spec: the collaborators [interceptSystemJsProps]
    and [clearSystemJsProps] of ./noise/systemjs, which are not among the
    sources, are opaque hooks; their calls are recorded, in call order. *)
Inductive noise_call :=
  | InterceptSystemJsProps (p : key) (v : value)
  | ClearSystemJsProps (global : ref) (allInactive : bool).

(** The module-level bindings: the object [unscopables], the counter
    [activeSandboxCount]; with them the constant [process.env.NODE_ENV]
    the module was built with, the environment and the record of
    collaborator calls. *)
Record World := {
  NODE_ENV : string;
  env : Env;
  unscopables : object;
  activeSandboxCount : Z;
  noise : list noise_call }.

Definition unscopables_names : list string :=
  ["undefined"; "Array"; "Object"; "String"; "Boolean"; "Math"; "eval";
   "Number"; "Symbol"; "parseFloat"; "Float32Array"].

(** The object literal bound to [unscopables] when the module is loaded. *)
Definition unscopables_literal (e : Env) : object :=
  literal (objectPrototype e)
    (list_to_map ((fun s => (KStr s, Data (VBool true) true true true)) <$> unscopables_names)).

(** The state of the module right after it is loaded in [e]. *)
Definition load (node_env : string) (e : Env) : World :=
  {| NODE_ENV := node_env; env := e; unscopables := unscopables_literal e;
     activeSandboxCount := 0; noise := [] |}.

Definition with_env (e : Env) (w : World) : World :=
  {| NODE_ENV := NODE_ENV w; env := e; unscopables := unscopables w;
     activeSandboxCount := activeSandboxCount w; noise := noise w |}.

Definition with_activeSandboxCount (n : Z) (w : World) : World :=
  {| NODE_ENV := NODE_ENV w; env := env w; unscopables := unscopables w; activeSandboxCount := n; noise := noise w |}.

Definition record_call (c : noise_call) (w : World) : World :=
  {| NODE_ENV := NODE_ENV w; env := env w; unscopables := unscopables w;
     activeSandboxCount := activeSandboxCount w; noise := noise w ++ [c] |}.

(** ** createFakeWindow *)

(** [p === 'top' || p === 'parent' || p === 'self' || p === 'window' ||
     (process.env.NODE_ENV === 'test' && (p === 'mockTop' || p === 'mockSafariTop'))] *)
Definition is_self_reference (node_env : string) (p : key) : bool :=
  bool_decide (p = KStr "top") || bool_decide (p = KStr "parent")
  || bool_decide (p = KStr "self") || bool_decide (p = KStr "window")
  || (bool_decide (node_env = "test")
      && (bool_decide (p = KStr "mockTop") || bool_decide (p = KStr "mockSafariTop"))).

(** [Object.getOwnPropertyNames] lists the string keys only. *)
Definition is_name (p : key) : bool :=
  match p with KStr _ => true | KSym _ => false end.

(** The descriptor [createFakeWindow] defines on the fake window for the
    property [p] of the global object whose descriptor is [d]. *)
Definition copied_descriptor (node_env : string) (p : key) (d : property) : property :=
  if is_self_reference node_env p then
    match d with
    | Data v _ en _ => Data v true en true
    | Accessor g s en _ => Accessor g s en true
    end
  else d.

(** The names [createFakeWindow] goes through: the own property names of
    [global] whose descriptor is not configurable. *)
Definition non_configurable (global : object) : gmap key property :=
  filter (fun pd => is_name pd.1 = true ∧ configurable pd.2 = false) (own global).

Definition createFakeWindow (w : World) (global : object) : object * gmap key bool :=
  let fakeWindow :=
    literal (objectPrototype (env w))
      (map_imap (fun p d => Some (copied_descriptor (NODE_ENV w) p d)) (non_configurable global)) in
  let propertiesWithGetter :=
    (fun _ => true) <$> filter (fun pd => hasGetter pd.2 = true) (non_configurable global) in
  (fakeWindow, propertiesWithGetter).

(** ** The class ProxySandbox *)

(** The fields of an instance and the bindings its handlers close over.
    [identity] is the allocation under which the objects of the instance
    ([proxy], [documentProxy], [fakeWindow], [fakeDocument] and the two
    closures) were created.  The field [type] is constant and the map
    [descriptorTargetMap] is used by the descriptor handlers only, which
    take it as an argument. *)
Record ProxySandbox := {
  identity : nat;
  name : string;
  sandboxRunning : bool;
  updatedValueSet : gset key;
  fakeWindow : object;
  propertiesWithGetter : gmap key bool;
  fakeDocument : object }.

(** [this.proxy] and [this.documentProxy] *)
Definition this_proxy (s : ProxySandbox) : ref := Proxy (identity s).
Definition this_documentProxy (s : ProxySandbox) : ref := DocumentProxy (identity s).

Definition with_sandboxRunning (b : bool) (s : ProxySandbox) : ProxySandbox :=
  {| identity := identity s; name := name s; sandboxRunning := b;
     updatedValueSet := updatedValueSet s; fakeWindow := fakeWindow s;
     propertiesWithGetter := propertiesWithGetter s; fakeDocument := fakeDocument s |}.

Definition with_updatedValueSet (u : gset key) (s : ProxySandbox) : ProxySandbox :=
  {| identity := identity s; name := name s; sandboxRunning := sandboxRunning s;
     updatedValueSet := u; fakeWindow := fakeWindow s;
     propertiesWithGetter := propertiesWithGetter s; fakeDocument := fakeDocument s |}.

Definition with_fakeWindow (o : object) (s : ProxySandbox) : ProxySandbox :=
  {| identity := identity s; name := name s; sandboxRunning := sandboxRunning s;
     updatedValueSet := updatedValueSet s; fakeWindow := o;
     propertiesWithGetter := propertiesWithGetter s; fakeDocument := fakeDocument s |}.

Definition with_fakeDocument (o : object) (s : ProxySandbox) : ProxySandbox :=
  {| identity := identity s; name := name s; sandboxRunning := sandboxRunning s;
     updatedValueSet := updatedValueSet s; fakeWindow := fakeWindow s;
     propertiesWithGetter := propertiesWithGetter s; fakeDocument := o |}.

(** ** Running a method or a handler *)

(** A method or a handler of an instance runs on the module state and on
    the instance, and returns or raises; what it did before it raised
    stays done. *)
Record State := { shared : World; this : ProxySandbox }.

Inductive error :=
  | TypeError
  | Raised.

Inductive result (A : Type) :=
  | Returns (a : A)
  | Throws (e : error).
Arguments Returns {A} a.
Arguments Throws {A} e.

Definition M (A : Type) : Type := State -> result A * State.

Definition ret {A} (a : A) : M A := fun σ => (Returns a, σ).

Definition bind {A B} (m : M A) (k : A -> M B) : M B :=
  fun σ => match m σ with
           | (Returns a, σ') => k a σ'
           | (Throws e, σ') => (Throws e, σ')
           end.

Notation "'let*' x ':=' m 'in' k" := (bind m (fun x => k))
  (at level 10, x name, m at level 100, k at level 200).
Notation "m ;; k" := (bind m (fun _ => k))
  (at level 100, k at level 200, right associativity).

Definition throw {A} (e : error) : M A := fun σ => (Throws e, σ).

Definition gets {A} (f : State -> A) : M A := fun σ => (Returns (f σ), σ).

Definition on_this (f : ProxySandbox -> ProxySandbox) : M unit :=
  fun σ => (Returns tt, {| shared := shared σ; this := f (this σ) |}).

Definition on_shared (f : World -> World) : M unit :=
  fun σ => (Returns tt, {| shared := f (shared σ); this := this σ |}).

(** The two proxy targets of an instance. *)
Inductive target := TFakeWindow | TFakeDocument.

Definition target_object (t : target) (s : ProxySandbox) : object :=
  match t with TFakeWindow => fakeWindow s | TFakeDocument => fakeDocument s end.

Definition target_ref (t : target) (s : ProxySandbox) : ref :=
  match t with TFakeWindow => FakeWindow (identity s) | TFakeDocument => FakeDocument (identity s) end.

Definition with_target (t : target) (o : object) (s : ProxySandbox) : ProxySandbox :=
  match t with TFakeWindow => with_fakeWindow o s | TFakeDocument => with_fakeDocument o s end.

Section Handlers.

(** A call of a function that is not defined in the file, with its
    receiver and arguments: what it returns or that it raises, and the
    environment it leaves. *)
Variable invoke : fn -> ref -> list value -> Env -> result value * Env.

(** [getCreateElement] of ./patchers/dynamicAppend, not among the
    sources: the element-creation function for an owner. *)
Variable getCreateElement : value -> value.

Definition call (f : fn) (receiver : ref) (args : list value) : M value :=
  fun σ => let (r, e') := invoke f receiver args (env (shared σ)) in
           (r, {| shared := with_env e' (shared σ); this := this σ |}).

(** [target[p] = value] in strict code *)
Definition put (t : target) (p : key) (v : value) : M unit :=
  let* o := gets (fun σ => target_object t (this σ)) in
  match assign o p v with
  | Stored o' => on_this (with_target t o')
  | Rejected => throw TypeError
  | ToSetter f => let* r := gets (fun σ => target_ref t (this σ)) in call f r [v] ;; ret tt
  end.

(** [Reflect.set(target, p, value)] *)
Definition Reflect_set (t : target) (p : key) (v : value) : M bool :=
  let* o := gets (fun σ => target_object t (this σ)) in
  match assign o p v with
  | Stored o' => on_this (with_target t o') ;; ret true
  | Rejected => ret false
  | ToSetter f => let* r := gets (fun σ => target_ref t (this σ)) in call f r [v] ;; ret true
  end.

(** [delete target[p]] in strict code *)
Definition delete_strict (t : target) (p : key) : M unit :=
  let* o := gets (fun σ => target_object t (this σ)) in
  match remove o p with
  | Some o' => on_this (with_target t o')
  | None => throw TypeError
  end.

(** [Reflect.deleteProperty(target, p)] *)
Definition Reflect_deleteProperty (t : target) (p : key) : M bool :=
  let* o := gets (fun σ => target_object t (this σ)) in
  match remove o p with
  | Some o' => on_this (with_target t o') ;; ret true
  | None => ret false
  end.

(** [target.hasOwnProperty(p)], used as a condition: the method is
    looked up on the target. *)
Definition target_hasOwnProperty (t : target) (p : key) : M bool :=
  let* o := gets (fun σ => target_object t (this σ)) in
  match read o "hasOwnProperty" with
  | VFun ObjectHasOwnProperty => ret (owns o p)
  | VFun f => let* r := gets (fun σ => target_ref t (this σ)) in
              let* b := call f r [key_value p] in ret (truthy b)
  | _ => throw TypeError
  end.

End Handlers.

(** [active()] *)
Definition active : M unit :=
  let* running := gets (fun σ => sandboxRunning (this σ)) in
  (if negb running
   then on_shared (fun w => with_activeSandboxCount (activeSandboxCount w + 1) w)
   else ret tt) ;;
  on_this (with_sandboxRunning true).

(** [inactive()]; the listing of [updatedValueSet] in development mode
    leaves the state as it is. *)
Definition inactive : M unit :=
  let* global := gets (fun σ => this_proxy (this σ)) in
  on_shared (fun w => with_activeSandboxCount (activeSandboxCount w - 1) w) ;;
  let* count := gets (fun σ => activeSandboxCount (shared σ)) in
  on_shared (record_call (ClearSystemJsProps global (count =? 0)%Z)) ;;
  on_this (with_sandboxRunning false).

(** [new ProxySandbox(name)], run in the environment of [w]; [i] is the
    allocation of the objects it creates. *)
Definition new (i : nat) (name : string) (w : World) : ProxySandbox :=
  let rawWindow := rawWindow (env w) in
  let '(fakeWindow, propertiesWithGetter) := createFakeWindow w rawWindow in
  {| identity := i;
     name := name;
     sandboxRunning := true;
     updatedValueSet := ∅;
     fakeWindow := fakeWindow;
     propertiesWithGetter := propertiesWithGetter;
     fakeDocument := literal (objectPrototype (env w)) ∅ |}.

(** ** The handler of documentProxy *)

Module documentProxy.
Section Traps.

Variable invoke : fn -> ref -> list value -> Env -> result value * Env.
Variable getCreateElement : value -> value.

Definition set (p : key) (v : value) : M bool :=
  let* target := gets (fun σ => fakeDocument (this σ)) in
  if bool_decide (p = attachDocProxySymbol) && negb (strict_equal (read target p) v) then
    put invoke TFakeDocument p v ;;
    put invoke TFakeDocument "createElement" (getTargetValue RawDocument (getCreateElement v)) ;;
    ret true
  else if bool_decide (p = KStr "createElement") then
    put invoke TFakeDocument "createElement" (getTargetValue RawDocument v) ;;
    ret true
  else Reflect_set invoke TFakeDocument p v.

Definition get (p : key) : M value :=
  if bool_decide (p = KStr "hasOwnProperty") then
    gets (fun σ => VFun (DocHasOwnProperty (identity (this σ))))
  else if bool_decide (p = attachDocProxySymbol) || bool_decide (p = KStr "createElement") then
    gets (fun σ => read (fakeDocument (this σ)) p)
  else
    gets (fun σ => getTargetValue RawDocument (read (rawDocument (env (shared σ))) p)).

Definition has (p : key) : M bool :=
  gets (fun σ => has_in p (fakeDocument (this σ)) || has_in p (rawDocument (env (shared σ)))).

Definition deleteProperty (p : key) : M bool :=
  if bool_decide (p = attachDocProxySymbol) || bool_decide (p = KStr "createElement") then
    delete_strict TFakeDocument p ;;
    delete_strict TFakeDocument "createElement" ;;
    ret true
  else Reflect_deleteProperty TFakeDocument p.

End Traps.
End documentProxy.

(** ** The handler of proxy *)

Module proxy.
Section Traps.

Variable invoke : fn -> ref -> list value -> Env -> result value * Env.
Variable getCreateElement : value -> value.

(** The warning of development mode leaves the state as it is. *)
Definition set (p : key) (v : value) : M bool :=
  let* running := gets (fun σ => sandboxRunning (this σ)) in
  if running then
    put invoke TFakeWindow p v ;;
    on_this (fun s => with_updatedValueSet ({[p]} ∪ updatedValueSet s) s) ;;
    on_shared (record_call (InterceptSystemJsProps p v)) ;;
    ret true
  else ret true.

(** The assignment [documentProxy[attachDocProxySymbol] = proxy] runs
    the set handler of documentProxy and, in strict code, raises when
    that handler answers false. *)
Definition get (p : key) : M value :=
  if bool_decide (p = KSym SymUnscopables) then ret (VRef Unscopables)
  else
    let* node_env := gets (fun σ => NODE_ENV (shared σ)) in
    if is_self_reference node_env p then gets (fun σ => VRef (this_proxy (this σ)))
    else if bool_decide (p = KStr "hasOwnProperty") then
      gets (fun σ => VFun (HasOwnProperty (identity (this σ))))
    else if bool_decide (p = KStr "document") then
      let* proxy := gets (fun σ => this_proxy (this σ)) in
      let* ok := documentProxy.set invoke getCreateElement attachDocProxySymbol (VRef proxy) in
      if ok then gets (fun σ => VRef (this_documentProxy (this σ))) else throw TypeError
    else
      gets (fun σ =>
        let target := fakeWindow (this σ) in
        let rawWindow := rawWindow (env (shared σ)) in
        let value :=
          if bool_decide (is_Some (propertiesWithGetter (this σ) !! p))
          then read rawWindow p
          else or_else (read target p) (read rawWindow p) in
        getTargetValue RawWindow value).

Definition has (p : key) : M bool :=
  gets (fun σ => has_in p (unscopables (shared σ))
                 || has_in p (fakeWindow (this σ))
                 || has_in p (rawWindow (env (shared σ)))).

Definition deleteProperty (p : key) : M bool :=
  let* owned := target_hasOwnProperty invoke TFakeWindow p in
  if owned then
    delete_strict TFakeWindow p ;;
    on_this (fun s => with_updatedValueSet (updatedValueSet s ∖ {[p]}) s) ;;
    ret true
  else ret true.

End Traps.
End proxy.

(** ** The vocabulary of the properties *)

(** The keys the get handler of proxy answers before it looks at the
    fake window or at the global object: [Symbol.unscopables], the
    self references, ['hasOwnProperty'] and ['document']. *)
Definition is_reserved (node_env : string) (p : key) : bool :=
  bool_decide (p = KSym SymUnscopables) || is_self_reference node_env p
  || bool_decide (p = KStr "hasOwnProperty") || bool_decide (p = KStr "document").

Definition is_function (v : value) : bool :=
  match v with VFun _ => true | _ => false end.

(** [propertiesWithGetter.has(p)] *)
Definition getter_backed (s : ProxySandbox) (p : key) : bool :=
  bool_decide (is_Some (propertiesWithGetter s !! p)).

(** An assignment to [o[p]] stores its value: [p] is not there, owned or
    inherited, as a read-only data property or as an accessor, and [o]
    can take a new property when it does not own [p]. *)
Definition storable (o : object) (p : key) : bool :=
  match own o !! p with
  | Some (Data _ w _ _) => w
  | Some (Accessor _ _ _ _) => false
  | None =>
      match inherited o !! p with
      | Some (Data _ w _ _) => w && extensible o
      | Some (Accessor _ _ _ _) => false
      | None => extensible o
      end
  end.

(** The built-in [hasOwnProperty] is what the method lookup on [o] finds. *)
Definition hasOwnProperty_is_builtin (o : object) : bool :=
  bool_decide (read o "hasOwnProperty" = VFun ObjectHasOwnProperty).

(** Two states that differ at most in the counter, in the record of
    collaborator calls and in [unscopables]; and a computation that does
    not look at those. *)
Definition same_view (σ1 σ2 : State) : Prop :=
  NODE_ENV (shared σ1) = NODE_ENV (shared σ2)
  /\ env (shared σ1) = env (shared σ2)
  /\ this σ1 = this σ2.

Definition blind {A} (m : M A) : Prop :=
  forall σ1 σ2, same_view σ1 σ2 ->
    fst (m σ1) = fst (m σ2) /\ same_view (snd (m σ1)) (snd (m σ2)).

(** A method or handler [m] of the instance [s], run in the module state [w]. *)
Definition run {A} (m : M A) (w : World) (s : ProxySandbox) : result A * State :=
  m {| shared := w; this := s |}.

(** The calls [A.active(); B.active(); A.inactive(); B.inactive()] from
    the module state [w]: the module state they leave. *)
Definition active_active_inactive_inactive (w : World) (A B : ProxySandbox) : World :=
  let σA := snd (run active w A) in
  let σB := snd (run active (shared σA) B) in
  let σA' := snd (run inactive (shared σB) (this σA)) in
  let σB' := snd (run inactive (shared σA') (this σB)) in
  shared σB'.

(** ** A host with several instances *)

(** The instances a host holds, each under a number, and the calls it
    makes of their lifecycle methods. *)
Record Host := { module_state : World; instances : gmap nat ProxySandbox }.

Inductive lifecycle :=
  | Activate (i : nat)
  | Deactivate (i : nat).

Definition call_method (m : M unit) (i : nat) (h : Host) : Host :=
  match instances h !! i with
  | Some s =>
      let σ := snd (run m (module_state h) s) in
      {| module_state := shared σ; instances := <[i := this σ]> (instances h) |}
  | None => h
  end.

Definition lifecycle_step (h : Host) (c : lifecycle) : Host :=
  match c with
  | Activate i => call_method active i h
  | Deactivate i => call_method inactive i h
  end.

Definition lifecycle_run (h : Host) (cs : list lifecycle) : Host :=
  foldl lifecycle_step h cs.

(** The contract of the callers: [inactive] is called on an instance
    that is running. *)
Fixpoint disciplined (h : Host) (cs : list lifecycle) : Prop :=
  match cs with
  | [] => True
  | c :: cs' =>
      match c with
      | Activate _ => True
      | Deactivate i => exists s, instances h !! i = Some s /\ sandboxRunning s = true
      end
      /\ disciplined (lifecycle_step h c) cs'
  end.

(** The number of instances of the host that are not running. *)
Definition stopped (h : Host) : nat :=
  size (filter (fun kv => sandboxRunning kv.2 = false) (instances h)).

(** No call of [clearSystemJsProps] was told that all instances are inactive. *)
Definition never_last (w : World) : Prop :=
  forall global allInactive,
    ClearSystemJsProps global allInactive ∈ noise w -> allInactive = false.

(** ** A browser-like environment, for the examples *)

Module Example.

(** The part of [Object.prototype] the examples use. *)
Definition prototype : gmap key property :=
  list_to_map
    [ (KStr "hasOwnProperty", Data (VFun ObjectHasOwnProperty) true false true);
      (KStr "toString", Data (VFun (Native 0)) true false true);
      (KStr "__proto__", Accessor (Some (VRef (Heap 0))) (Some (Native 1)) false true) ].

(** A global object in the manner of a browser's: [window], [document]
    and [location] are accessors that cannot be reconfigured, [top] and
    [NaN] are data properties that can be neither written nor
    reconfigured, [self] and [parent] are configurable; [shared] is a
    global variable of the host page and [live] an accessor the host
    page defined, with a getter that returns a function. *)
Definition window : object :=
  {| own := list_to_map
       [ (KStr "window", Accessor (Some (VRef RawWindow)) None true false);
         (KStr "document", Accessor (Some (VRef RawDocument)) None true false);
         (KStr "location", Accessor (Some (VRef (Heap 1))) (Some (Native 2)) true false);
         (KStr "top", Data (VRef RawWindow) false true false);
         (KStr "NaN", Data VNaN false false false);
         (KStr "self", Accessor (Some (VRef RawWindow)) (Some (Native 3)) true true);
         (KStr "parent", Accessor (Some (VRef RawWindow)) (Some (Native 4)) true true);
         (KStr "Array", Data (VFun (Native 5)) true false true);
         (KStr "shared", Data (VNum 5) true true true);
         (KStr "live", Accessor (Some (VFun (Native 6))) (Some (Native 7)) true false) ];
     inherited := prototype;
     extensible := true |}.

Definition document : object :=
  {| own := list_to_map [ (KStr "location", Accessor (Some (VRef (Heap 1))) (Some (Native 2)) true false) ];
     inherited := <[KStr "createElement" := Data (VFun (Native 8)) true true true]> prototype;
     extensible := true |}.

Definition browser : Env :=
  {| rawWindow := window; rawDocument := document; objectPrototype := prototype |}.

(** Functions from outside the file: every setter returns without
    touching the environment, except the setter of [location], which
    raises when its receiver is not the global object. *)
Definition invoke (f : fn) (receiver : ref) (args : list value) (e : Env) : result value * Env :=
  match f, receiver with
  | Native 2, RawWindow => (Returns VUndefined, e)
  | Native 2, _ => (Throws Raised, e)
  | _, _ => (Returns VUndefined, e)
  end.

(** An element-creation function per owner. *)
Definition getCreateElement (owner : value) : value :=
  match owner with
  | VRef (Proxy i) => VFun (Native (100 + i))
  | _ => VFun (Native 99)
  end.

Definition world : World := load "production" browser.

Definition A : ProxySandbox := new 1 "A" world.
Definition B : ProxySandbox := new 2 "B" world.

Definition start : State := {| shared := world; this := A |}.

(** A after [inactive()]. *)
Definition deactivated : State := snd (inactive start).

(** A after its document has been read once, and then after
    [delete document.createElement] through the document proxy. *)
Definition tagged : State :=
  snd (proxy.get invoke getCreateElement "document" start).

Definition untagged : State :=
  snd (documentProxy.deleteProperty "createElement" tagged).

(** [proxy[p] = v] followed by [proxy[p]] *)
Definition set_then_get (p : key) (v : value) : M value :=
  proxy.set invoke p v ;; proxy.get invoke getCreateElement p.

End Example.

(** ** The descriptor handlers of proxy, its key listing and the two closures *)

(** [type SymbolTarget = 'target' | 'rawWindow'] *)
Inductive SymbolTarget :=
  | FromTarget
  | FromRawWindow.

(** Modelled from the spec: [uniq] of ../utils, which is not among the
    sources, removes the duplicates of a list, the first occurrence of
    each element staying where it is.  [uniq_seen seen l] is the run over
    [l] once the elements of [seen] have been met. *)
Fixpoint uniq_seen (seen : list key) (l : list key) : list key :=
  match l with
  | [] => []
  | x :: l' =>
      if bool_decide (x ∈ seen) then uniq_seen seen l'
      else x :: uniq_seen (x :: seen) l'
  end.

Definition uniq (l : list key) : list key := uniq_seen [] l.

Definition with_rawWindow (o : object) (e : Env) : Env :=
  {| rawWindow := o; rawDocument := rawDocument e; objectPrototype := objectPrototype e |}.

Section Descriptors.

Variable invoke : fn -> ref -> list value -> Env -> result value * Env.

(** The built-in [Reflect.ownKeys]: the own keys of an object, in the
    order the engine keeps, which the model of objects does not record. *)
Variable Reflect_ownKeys : object -> list key.

(** The built-in [Reflect.defineProperty] on an ordinary object, with the
    attributes it is given: whether it succeeded, and the object it
    leaves. *)
Variable attributes : Type.
Variable Reflect_defineProperty : object -> key -> attributes -> bool * object.

(** [o.hasOwnProperty(p)] for the object [obj] of the state, whose
    identity is [receiver]: the method is looked up on the object. *)
Definition object_hasOwnProperty
    (obj : State -> object) (receiver : State -> ref) (p : key) : M value :=
  let* o := gets obj in
  match read o "hasOwnProperty" with
  | VFun ObjectHasOwnProperty => ret (VBool (owns o p))
  | VFun f => let* r := gets receiver in call invoke f r [key_value p]
  | _ => throw TypeError
  end.

Definition fakeWindow_hasOwnProperty : key -> M value :=
  object_hasOwnProperty (fun σ => fakeWindow (this σ)) (fun σ => FakeWindow (identity (this σ))).

Definition rawWindow_hasOwnProperty : key -> M value :=
  object_hasOwnProperty (fun σ => rawWindow (env (shared σ))) (fun _ => RawWindow).



(** [const hasOwnProperty = (key) =>
      fakeWindow.hasOwnProperty(key) || rawWindow.hasOwnProperty(key)] *)
Definition hasOwnProperty (p : key) : M value :=
  let* a := fakeWindow_hasOwnProperty p in
  if truthy a then ret a else rawWindow_hasOwnProperty p.


(** The handler getOwnPropertyDescriptor.  The map [descriptorTargetMap]
    the constructor creates for this handler and for defineProperty is
    passed in, and returned with the descriptor ([None]: undefined). *)
Definition getOwnPropertyDescriptor
    (descriptorTargetMap : gmap key SymbolTarget) (p : key)
    : M (option property * gmap key SymbolTarget) :=
  let* a := fakeWindow_hasOwnProperty p in
  if truthy a then
    let* descriptor := gets (fun σ => own (fakeWindow (this σ)) !! p) in
    ret (descriptor, <[p := FromTarget]> descriptorTargetMap)
  else
    let* b := rawWindow_hasOwnProperty p in
    if truthy b then
      let* descriptor := gets (fun σ => own (rawWindow (env (shared σ))) !! p) in
      ret (descriptor, <[p := FromRawWindow]> descriptorTargetMap)
    else ret (None, descriptorTargetMap).

(** The handler ownKeys *)
Definition ownKeys : M (list key) :=
  gets (fun σ => uniq (Reflect_ownKeys (rawWindow (env (shared σ)))
                       ++ Reflect_ownKeys (fakeWindow (this σ)))).

(** The handler defineProperty *)
Definition defineProperty
    (descriptorTargetMap : gmap key SymbolTarget) (p : key) (a : attributes) : M bool :=
  match descriptorTargetMap !! p with
  | Some FromRawWindow =>
      let* rawWindow := gets (fun σ => rawWindow (env (shared σ))) in
      let (done, rawWindow') := Reflect_defineProperty rawWindow p a in
      on_shared (fun w => with_env (with_rawWindow rawWindow' (env w)) w) ;;
      ret done
  | _ =>
      let* target := gets (fun σ => fakeWindow (this σ)) in
      let (done, target') := Reflect_defineProperty target p a in
      on_this (with_fakeWindow target') ;;
      ret done
  end.

End Descriptors.

(** ** The handle, as the engine runs its handlers *)

(** Code that reads, writes or deletes a property of the handle [proxy]
    does not call a handler: it runs the internal method of the proxy
    object, which calls the handler and then holds its answer against the
    own property the target, the fake window, has under that key
    (ECMAScript, Proxy Object Internal Methods: [[Get]], [[Set]],
    [[Delete]]).  A check that fails raises a TypeError, in strict code
    and in sloppy code alike. *)

(** [SameValue(a, b)]: NaN is the same value as NaN.  The numbers of the
    model have one zero. *)
Definition same_value (a b : value) : bool := bool_decide (a = b).

(** [[Get]], once the handler has returned [trapResult]: a data property
    of the target that can be neither written nor reconfigured must be
    reported with its value, and an accessor that cannot be reconfigured
    and has no getter as undefined. *)
Definition get_invariant (target : object) (p : key) (trapResult : value) : bool :=
  match own target !! p with
  | Some (Data u false _ false) => same_value trapResult u
  | Some (Accessor None _ _ false) => bool_decide (trapResult = VUndefined)
  | _ => true
  end.

(** [[Set]], once the handler has answered true: the value of a data
    property of the target that can be neither written nor reconfigured
    cannot be changed, and nothing can be written to an accessor that
    cannot be reconfigured and has no setter. *)
Definition set_invariant (target : object) (p : key) (v : value) : bool :=
  match own target !! p with
  | Some (Data u false _ false) => same_value v u
  | Some (Accessor _ None _ false) => false
  | _ => true
  end.

(** [[Delete]], once the handler has answered true: the target no longer
    owns the property, or owns it as a configurable one and can still
    take new properties. *)
Definition delete_invariant (target : object) (p : key) : bool :=
  match own target !! p with
  | None => true
  | Some d => configurable d && extensible target
  end.

Section Engine.

Variable invoke : fn -> ref -> list value -> Env -> result value * Env.
Variable getCreateElement : value -> value.

(** [proxy[p]] *)
Definition Proxy_Get (p : key) : M value :=
  let* trapResult := proxy.get invoke getCreateElement p in
  let* target := gets (fun σ => fakeWindow (this σ)) in
  if get_invariant target p trapResult then ret trapResult else throw TypeError.

(** [Reflect.set(proxy, p, v)], and what [proxy[p] = v] comes to: true
    when the assignment went through. *)
Definition Proxy_Set (p : key) (v : value) : M bool :=
  let* ok := proxy.set invoke p v in
  if ok then
    let* target := gets (fun σ => fakeWindow (this σ)) in
    if set_invariant target p v then ret true else throw TypeError
  else ret false.

(** [Reflect.deleteProperty(proxy, p)], and what [delete proxy[p]] comes to *)
Definition Proxy_Delete (p : key) : M bool :=
  let* ok := proxy.deleteProperty invoke p in
  if ok then
    let* target := gets (fun σ => fakeWindow (this σ)) in
    if delete_invariant target p then ret true else throw TypeError
  else ret false.

End Engine.

(** [o] owns [p] as a data property that can be neither written nor
    reconfigured. *)
Definition frozen (o : object) (p : key) : bool :=
  match own o !! p with
  | Some (Data _ false _ false) => true
  | _ => false
  end.

(** ** Built-ins for the examples *)

#[global] Instance property_eq_dec : EqDecision property.
Proof. solve_decision. Defined.

Module ExampleBuiltins.

(** The own keys in the order of the map that holds them. *)
Definition ownKeys_of (o : object) : list key := (map_to_list (own o)).*1.

(** A [Reflect.defineProperty] that takes whole descriptors: it adds the
    property to an object that can take it, replaces a configurable one,
    and refuses to touch any other unless the descriptor is the one
    already there. *)
Definition defineProperty_of (o : object) (p : key) (d : property) : bool * object :=
  match own o !! p with
  | None =>
      if extensible o then (true, with_own (<[p := d]> (own o)) o) else (false, o)
  | Some d0 =>
      if configurable d0 then (true, with_own (<[p := d]> (own o)) o)
      else (bool_decide (d = d0), o)
  end.

(** A host that holds the instances A and B of the example. *)
Definition host : Host :=
  {| module_state := Example.world;
     instances := <[1%nat := Example.A]> (<[2%nat := Example.B]> ∅) |}.

(** A after the write of 0 to x. *)
Definition written : State :=
  snd (proxy.set Example.invoke (KStr "x") (VNum 0) Example.start).

(** The module loaded in a page whose global object has one more
    property, [assert]: a function that can be neither written nor
    reconfigured. *)
Definition sealed_window : object :=
  with_own (<[KStr "assert" := Data (VFun (Native 50)) false true false]> (own Example.window))
           Example.window.

Definition sealed_world : World :=
  load "production" (with_rawWindow sealed_window Example.browser).

(** An instance created in that page. *)
Definition C : ProxySandbox := new 3 "C" sealed_world.

End ExampleBuiltins.

(** * Properties *)

(** ** Objects *)

Lemma assign_storable o p v :
  storable o p = true ->
  exists d, assign o p v = Stored (with_own (<[p := d]> (own o)) o)
            /\ (exists w e c, d = Data v w e c).
Proof.
  unfold storable, assign. intros H.
  destruct (own o !! p) as [[u w e c|g f e c]|] eqn:Hown.
  - subst w. eauto 6.
  - discriminate.
  - destruct (inherited o !! p) as [[u w e c|g f e c]|] eqn:Hinh.
    + apply andb_true_iff in H as [-> ->]. eauto 6.
    + discriminate.
    + rewrite H. eauto 6.
Qed.

Lemma read_with_own_insert o p v w e c :
  read (with_own (<[p := Data v w e c]> (own o)) o) p = v.
Proof. unfold read, lookup_property. simpl. by rewrite lookup_insert_eq. Qed.

Lemma read_absent o p : has_in p o = false -> read o p = VUndefined.
Proof.
  unfold has_in, read. intros H.
  destruct (lookup_property o p) eqn:E; [|done].
  apply bool_decide_eq_false in H. destruct H. eauto.
Qed.

Lemma getTargetValue_plain target v :
  (forall f, v <> VFun f) -> getTargetValue target v = v.
Proof. destruct v; try done. intros H. by destruct (H f). Qed.

(** ** A fresh instance *)

Lemma new_fields i n w :
  identity (new i n w) = i /\ sandboxRunning (new i n w) = true
  /\ updatedValueSet (new i n w) = ∅
  /\ inherited (fakeWindow (new i n w)) = objectPrototype (env w)
  /\ extensible (fakeWindow (new i n w)) = true.
Proof. done. Qed.

(** The fake window of a fresh instance owns the copies of the own
    properties of the global object that have a string key and are not
    configurable, and nothing else. *)
Lemma new_fakeWindow_own i n w p :
  own (fakeWindow (new i n w)) !! p =
    match own (rawWindow (env w)) !! p with
    | Some d =>
        if is_name p && negb (configurable d)
        then Some (copied_descriptor (NODE_ENV w) p d) else None
    | None => None
    end.
Proof.
  unfold new, createFakeWindow, literal, non_configurable. simpl.
  rewrite map_lookup_imap, map_lookup_filter.
  destruct (own (rawWindow (env w)) !! p) as [d|]; [|done]. simpl.
  destruct (is_name p), (configurable d); simpl; try done;
    case_guard; simpl in *; naive_solver.
Qed.

(** Its map [propertiesWithGetter] holds those of them that are accessors. *)
Lemma new_propertiesWithGetter i n w p :
  propertiesWithGetter (new i n w) !! p =
    match own (rawWindow (env w)) !! p with
    | Some d =>
        if is_name p && negb (configurable d) && hasGetter d then Some true else None
    | None => None
    end.
Proof.
  unfold new, createFakeWindow, non_configurable. simpl.
  rewrite lookup_fmap, !map_lookup_filter.
  destruct (own (rawWindow (env w)) !! p) as [d|]; [|done]. simpl.
  destruct (is_name p), (configurable d), (hasGetter d) eqn:Hg; simpl;
    repeat (case_guard; simpl in * ); try done; intuition congruence.
Qed.

Lemma new_getter_backed i n w p :
  getter_backed (new i n w) p =
    match own (rawWindow (env w)) !! p with
    | Some d => is_name p && negb (configurable d) && hasGetter d
    | None => false
    end.
Proof.
  unfold getter_backed. rewrite new_propertiesWithGetter.
  destruct (own (rawWindow (env w)) !! p) as [d|]; [|done].
  by destruct (is_name p && negb (configurable d) && hasGetter d).
Qed.

(** What [createFakeWindow] relaxes the copies of the self references
    for: the fake window of a fresh instance holds them as configurable
    properties, and as writable ones when they are data properties. *)
Lemma new_self_reference_relaxed i n w p d :
  is_self_reference (NODE_ENV w) p = true ->
  own (fakeWindow (new i n w)) !! p = Some d ->
  configurable d = true
  /\ match d with Data _ writable _ _ => writable = true | Accessor _ _ _ _ => True end.
Proof.
  intros Hself. rewrite new_fakeWindow_own.
  destruct (own (rawWindow (env w)) !! p) as [d0|]; [|done].
  destruct (is_name p && negb (configurable d0)); [|done].
  unfold copied_descriptor. rewrite Hself.
  intros [= <-]. by destruct d0.
Qed.

(** A key that is neither in the global object nor in [Object.prototype]
    is not in the fake window of a fresh instance, which stores
    assignments to it. *)
Lemma new_absent i n w p :
  has_in p (rawWindow (env w)) = false ->
  objectPrototype (env w) !! p = None ->
  has_in p (fakeWindow (new i n w)) = false
  /\ storable (fakeWindow (new i n w)) p = true
  /\ getter_backed (new i n w) p = false.
Proof.
  intros Hraw Hproto.
  assert (Hown : own (rawWindow (env w)) !! p = None).
  { apply bool_decide_eq_false in Hraw. unfold lookup_property in Hraw.
    destruct (own (rawWindow (env w)) !! p); [destruct Hraw; eauto|done]. }
  pose proof (new_fakeWindow_own i n w p) as Hfw. rewrite Hown in Hfw.
  repeat split.
  - unfold has_in, lookup_property. rewrite Hfw. cbn. rewrite Hproto.
    apply bool_decide_eq_false. by intros [? ?].
  - unfold storable. rewrite Hfw. cbn. by rewrite Hproto.
  - by rewrite new_getter_backed, Hown.
Qed.

(** ** Computations that do not look at the counter or at the record of calls *)

Lemma blind_ret {A} (a : A) : blind (ret a).
Proof. by intros σ1 σ2 Hv. Qed.

Lemma blind_throw {A} e : blind (@throw A e).
Proof. by intros σ1 σ2 Hv. Qed.

Lemma blind_bind {A B} (m : M A) (k : A -> M B) :
  blind m -> (forall a, blind (k a)) -> blind (bind m k).
Proof.
  intros Hm Hk σ1 σ2 Hv. unfold bind.
  destruct (Hm σ1 σ2 Hv) as [Hr Hs].
  destruct (m σ1) as [r1 s1], (m σ2) as [r2 s2]. cbn in Hr, Hs. subst r2.
  destruct r1 as [a|e]; [by apply Hk|done].
Qed.

Lemma blind_gets {A} (f : State -> A) :
  (forall σ1 σ2, same_view σ1 σ2 -> f σ1 = f σ2) -> blind (gets f).
Proof. intros Hf σ1 σ2 Hv. cbn. split; [by f_equal; apply Hf|done]. Qed.

Lemma blind_on_this f : blind (on_this f).
Proof.
  intros σ1 σ2 (Hn & He & Ht). cbn. split; [done|].
  unfold same_view. cbn. by rewrite Ht.
Qed.

Lemma blind_call invoke f r args : blind (call invoke f r args).
Proof.
  intros σ1 σ2 (Hn & He & Ht). unfold call. rewrite He.
  destruct (invoke f r args (env (shared σ2))) as [res e']. cbn.
  split; [done|]. by unfold same_view.
Qed.

Create HintDb blind.
#[local] Hint Resolve blind_ret blind_throw blind_on_this blind_call : blind.

(** Splits a computation along its sequencing and its branches, down to
    the steps of the hint database. *)
Ltac blind_steps :=
  repeat first
    [ apply blind_bind; [|intros ?]
    | apply blind_gets;
      let Hn := fresh in let He := fresh in let Ht := fresh in
      intros ? ? (Hn & He & Ht); cbv zeta; rewrite ?Hn, ?He, ?Ht; reflexivity
    | solve [auto with blind]
    | case_match ].

Lemma blind_put invoke t p v : blind (put invoke t p v).
Proof. unfold put. blind_steps. Qed.

Lemma blind_Reflect_set invoke t p v : blind (Reflect_set invoke t p v).
Proof. unfold Reflect_set. blind_steps. Qed.

#[local] Hint Resolve blind_put blind_Reflect_set : blind.

Lemma blind_documentProxy_set invoke getCreateElement p v :
  blind (documentProxy.set invoke getCreateElement p v).
Proof. unfold documentProxy.set. blind_steps. Qed.

#[local] Hint Resolve blind_documentProxy_set : blind.

Lemma blind_proxy_get invoke getCreateElement p :
  blind (proxy.get invoke getCreateElement p).
Proof. unfold proxy.get. blind_steps. Qed.

(** ** The handlers of proxy *)

(** Unfolds the sequencing of a handler down to the state it acts on. *)
Ltac run_handler :=
  cbv beta iota zeta delta
    [bind gets ret throw on_this on_shared call put Reflect_set delete_strict
     Reflect_deleteProperty target_hasOwnProperty target_object target_ref with_target];
  cbn [shared this fst snd].

Section Proxy.

Variable invoke : fn -> ref -> list value -> Env -> result value * Env.
Variable getCreateElement : value -> value.

(** A write through a running instance whose fake window stores
    assignments to [p]. *)
Lemma set_running_storable σ p v :
  sandboxRunning (this σ) = true ->
  storable (fakeWindow (this σ)) p = true ->
  exists d, (exists w e c, d = Data v w e c) /\
    proxy.set invoke p v σ =
      (Returns true,
       {| shared := record_call (InterceptSystemJsProps p v) (shared σ);
          this := with_updatedValueSet ({[p]} ∪ updatedValueSet (this σ))
                    (with_fakeWindow
                       (with_own (<[p := d]> (own (fakeWindow (this σ)))) (fakeWindow (this σ)))
                       (this σ)) |}).
Proof.
  intros Hrun Hst.
  destruct (assign_storable _ _ v Hst) as (d & Hassign & Hd).
  exists d. split; [done|].
  unfold proxy.set. run_handler.
  rewrite Hrun. run_handler. rewrite Hassign. reflexivity.
Qed.

(** The value the get handler computes for a key that no earlier case
    of the handler answers. *)
Lemma get_not_reserved σ p :
  is_reserved (NODE_ENV (shared σ)) p = false ->
  proxy.get invoke getCreateElement p σ =
    (Returns (getTargetValue RawWindow
       (if getter_backed (this σ) p
        then read (rawWindow (env (shared σ))) p
        else or_else (read (fakeWindow (this σ)) p) (read (rawWindow (env (shared σ))) p))),
     σ).
Proof.
  unfold is_reserved. intros H.
  apply orb_false_iff in H as [H Hdoc].
  apply orb_false_iff in H as [H Hhas].
  apply orb_false_iff in H as [Huns Hself].
  unfold proxy.get. rewrite Huns. run_handler.
  rewrite Hself, Hhas, Hdoc. reflexivity.
Qed.

(** The fake window is preferred when what it answers is truthy. *)
Lemma get_truthy_in_fakeWindow σ p :
  getter_backed (this σ) p = false ->
  is_reserved (NODE_ENV (shared σ)) p = false ->
  truthy (read (fakeWindow (this σ)) p) = true ->
  proxy.get invoke getCreateElement p σ =
    (Returns (getTargetValue RawWindow (read (fakeWindow (this σ)) p)), σ).
Proof.
  intros Hgb Hres Htr. rewrite get_not_reserved by exact Hres.
  unfold or_else. by rewrite Hgb, Htr.
Qed.

(** A truthy value stored by a write is what the next read finds in
    the fake window; the write adds one collaborator call to the module
    state and nothing else. *)
Lemma set_stored_then_get σ p v :
  sandboxRunning (this σ) = true ->
  getter_backed (this σ) p = false ->
  is_reserved (NODE_ENV (shared σ)) p = false ->
  storable (fakeWindow (this σ)) p = true ->
  truthy v = true ->
  exists σ',
    proxy.set invoke p v σ = (Returns true, σ')
    /\ proxy.get invoke getCreateElement p σ' = (Returns (getTargetValue RawWindow v), σ')
    /\ shared σ' = record_call (InterceptSystemJsProps p v) (shared σ).
Proof.
  intros Hrun Hgb Hres Hst Htr.
  destruct (set_running_storable σ p v Hrun Hst) as (d & (w & e & c & ->) & Hset).
  eexists. split; [exact Hset|]. split; [|done].
  rewrite get_truthy_in_fakeWindow; cbn; rewrite ?read_with_own_insert; done.
Qed.

(** A key that is neither in the fake window nor in the global object
    reads as undefined. *)
Lemma get_absent σ p :
  has_in p (fakeWindow (this σ)) = false ->
  has_in p (rawWindow (env (shared σ))) = false ->
  is_reserved (NODE_ENV (shared σ)) p = false ->
  proxy.get invoke getCreateElement p σ = (Returns VUndefined, σ).
Proof.
  intros Hfw Hraw Hres. rewrite get_not_reserved by exact Hres.
  rewrite !read_absent by done. unfold or_else. cbn.
  by destruct (getter_backed (this σ) p).
Qed.

(** A write changes neither the map [propertiesWithGetter] nor the
    identity of the instance nor the build constant, however it ends. *)
Lemma set_preserves σ p v :
  let σ' := snd (proxy.set invoke p v σ) in
  propertiesWithGetter (this σ') = propertiesWithGetter (this σ)
  /\ identity (this σ') = identity (this σ)
  /\ NODE_ENV (shared σ') = NODE_ENV (shared σ).
Proof.
  unfold proxy.set. run_handler.
  destruct (sandboxRunning (this σ)); [|done]. run_handler.
  destruct (assign (fakeWindow (this σ)) p v) as [o'| |f]; run_handler; [done|done|].
  destruct (invoke f _ _ _) as [[r|err] e']; done.
Qed.

(** The set handler of an instance that is not running answers true and
    touches nothing. *)
Lemma set_not_running σ p v :
  sandboxRunning (this σ) = false ->
  proxy.set invoke p v σ = (Returns true, σ).
Proof.
  intros Hrun. unfold proxy.set. run_handler. by rewrite Hrun.
Qed.

(** What a write through the handle of such an instance comes to for the
    caller: the engine holds the handler's answer against the fake
    window, and raises when the fake window has the key as a property
    that the value cannot be written to and that cannot be reconfigured. *)
Lemma Proxy_Set_not_running σ p v :
  sandboxRunning (this σ) = false ->
  Proxy_Set invoke p v σ
  = (if set_invariant (fakeWindow (this σ)) p v then Returns true else Throws TypeError, σ).
Proof.
  intros Hrun. unfold Proxy_Set, bind. rewrite set_not_running by exact Hrun.
  run_handler. by destruct (set_invariant _ p v).
Qed.

(** [inactive()] leaves the fields of the instance as they are, but for
    [sandboxRunning]. *)
Lemma inactive_this w s : this (snd (run inactive w s)) = with_sandboxRunning false s.
Proof. reflexivity. Qed.

(** C7.  A write through the handle of an instance that was created and
    then deactivated raises a TypeError in the caller whenever the global
    object owns the key, a string other than the self references, as a
    data property that can be neither written nor reconfigured and that
    holds another value.  The set handler answers true and touches
    nothing, which its comment gives as the way to keep the error of
    strict code from the caller; but the fake window still owns the copy
    of the property that [createFakeWindow] made, and the engine raises
    on an answer of true to a write that the target would refuse. *)
Theorem set_inactive_read_only_raises w i n p u e v :
  own (rawWindow (env w)) !! p = Some (Data u false e false) ->
  is_name p = true ->
  is_self_reference (NODE_ENV w) p = false ->
  v <> u ->
  let σ := snd (run inactive w (new i n w)) in
  sandboxRunning (this σ) = false
  /\ proxy.set invoke p v σ = (Returns true, σ)
  /\ Proxy_Set invoke p v σ = (Throws TypeError, σ).
Proof.
  intros Hraw Hname Hself Hne σ.
  assert (Hrun : sandboxRunning (this σ) = false) by reflexivity.
  split; [exact Hrun|]. split; [by apply set_not_running|].
  rewrite Proxy_Set_not_running by exact Hrun.
  assert (Hinv : set_invariant (fakeWindow (this σ)) p v = false).
  { subst σ. rewrite inactive_this.
    change (fakeWindow (with_sandboxRunning false (new i n w))) with (fakeWindow (new i n w)).
    unfold set_invariant. rewrite new_fakeWindow_own, Hraw, Hname. cbn.
    unfold copied_descriptor. rewrite Hself.
    by apply bool_decide_eq_false_2. }
  by rewrite Hinv.
Qed.


(** C1, as the handlers have it.  For a key that is not in
    [propertiesWithGetter], that the get handler does not answer by
    itself and to which the fake window stores assignments, a write of
    a truthy value [v] through a running instance returns true, and the
    read that follows returns [getTargetValue(rawWindow, v)]: [v] itself
    unless [v] is a function, whatever the global object holds under
    that key. *)
Theorem set_then_get_truthy σ p v :
  sandboxRunning (this σ) = true ->
  getter_backed (this σ) p = false ->
  is_reserved (NODE_ENV (shared σ)) p = false ->
  storable (fakeWindow (this σ)) p = true ->
  truthy v = true ->
  exists σ',
    proxy.set invoke p v σ = (Returns true, σ')
    /\ proxy.get invoke getCreateElement p σ' = (Returns (getTargetValue RawWindow v), σ')
    /\ (is_function v = false -> getTargetValue RawWindow v = v).
Proof.
  intros Hrun Hgb Hres Hst Htr.
  destruct (set_stored_then_get σ p v) as (σ' & Hset & Hget & _); try done.
  exists σ'. split; [exact Hset|]. split; [exact Hget|]. by destruct v.
Qed.

(** C6, as the handlers have it.  For a key of [propertiesWithGetter]
    that the get handler does not answer by itself, the read that
    follows a write, however the write ended, returns
    [getTargetValue(rawWindow, rawWindow[p])]: the value the global
    object has at that moment, bound to the global object when it is a
    function; what the fake window holds plays no part. *)
Theorem set_then_get_getter_backed σ p v r σ' :
  getter_backed (this σ) p = true ->
  is_reserved (NODE_ENV (shared σ)) p = false ->
  proxy.set invoke p v σ = (r, σ') ->
  let live := read (rawWindow (env (shared σ'))) p in
  proxy.get invoke getCreateElement p σ' = (Returns (getTargetValue RawWindow live), σ')
  /\ (is_function live = false ->
      proxy.get invoke getCreateElement p σ' = (Returns live, σ')).
Proof.
  intros Hgb Hres Hset live.
  destruct (set_preserves σ p v) as (Hpg & _ & Hnode).
  rewrite Hset in Hpg, Hnode. cbn [snd] in Hpg, Hnode.
  assert (Hget : proxy.get invoke getCreateElement p σ'
                 = (Returns (getTargetValue RawWindow live), σ')).
  { rewrite get_not_reserved by (by rewrite Hnode).
    unfold getter_backed in *. by rewrite Hpg, Hgb. }
  split; [exact Hget|].
  intros Hfun. rewrite Hget. by destruct live.
Qed.

(** C3, as the handlers have it.  For a key that is neither in the
    fake window nor in the global object: the has handler answers
    false when the key is not in [unscopables] either, and the get
    handler returns undefined when the key is not one it answers by
    itself. *)
Theorem absent_key σ p :
  has_in p (fakeWindow (this σ)) = false ->
  has_in p (rawWindow (env (shared σ))) = false ->
  (has_in p (unscopables (shared σ)) = false ->
     proxy.has p σ = (Returns false, σ))
  /\ (is_reserved (NODE_ENV (shared σ)) p = false ->
      proxy.get invoke getCreateElement p σ = (Returns VUndefined, σ)).
Proof.
  intros Hfw Hraw. split.
  - intros Huns. unfold proxy.has. run_handler. by rewrite Huns, Hfw, Hraw.
  - intros Hres. by apply get_absent.
Qed.

(** The three outcomes of the deleteProperty handler while the method
    lookup [target.hasOwnProperty] finds the built-in. *)
Lemma deleteProperty_not_owned σ p :
  hasOwnProperty_is_builtin (fakeWindow (this σ)) = true ->
  own (fakeWindow (this σ)) !! p = None ->
  proxy.deleteProperty invoke p σ = (Returns true, σ).
Proof.
  intros Hbuiltin Hown. apply bool_decide_eq_true in Hbuiltin.
  unfold proxy.deleteProperty. run_handler.
  rewrite Hbuiltin. run_handler. unfold owns. rewrite Hown.
  rewrite bool_decide_eq_false_2 by (by intros [? ?]). by destruct σ.
Qed.

Lemma deleteProperty_configurable σ p d :
  hasOwnProperty_is_builtin (fakeWindow (this σ)) = true ->
  own (fakeWindow (this σ)) !! p = Some d ->
  configurable d = true ->
  proxy.deleteProperty invoke p σ
  = (Returns true,
     {| shared := shared σ;
        this := with_updatedValueSet (updatedValueSet (this σ) ∖ {[p]})
                  (with_fakeWindow
                     (with_own (delete p (own (fakeWindow (this σ)))) (fakeWindow (this σ)))
                     (this σ)) |}).
Proof.
  intros Hbuiltin Hown Hconf. apply bool_decide_eq_true in Hbuiltin.
  unfold proxy.deleteProperty. run_handler.
  rewrite Hbuiltin. run_handler. unfold owns. rewrite Hown.
  rewrite bool_decide_eq_true_2 by eauto.
  unfold remove. rewrite Hown, Hconf. run_handler. reflexivity.
Qed.

Lemma deleteProperty_not_configurable σ p d :
  hasOwnProperty_is_builtin (fakeWindow (this σ)) = true ->
  own (fakeWindow (this σ)) !! p = Some d ->
  configurable d = false ->
  proxy.deleteProperty invoke p σ = (Throws TypeError, σ).
Proof.
  intros Hbuiltin Hown Hconf. apply bool_decide_eq_true in Hbuiltin.
  unfold proxy.deleteProperty. run_handler.
  rewrite Hbuiltin. run_handler. unfold owns. rewrite Hown.
  rewrite bool_decide_eq_true_2 by eauto.
  unfold remove. rewrite Hown, Hconf. run_handler. by destruct σ.
Qed.

(** With that lookup, the checks of the engine never change what the
    handler did or answered: a deletion through the handle comes to the
    caller as the handler leaves it. *)
Lemma Proxy_Delete_is_deleteProperty σ p :
  hasOwnProperty_is_builtin (fakeWindow (this σ)) = true ->
  Proxy_Delete invoke p σ = proxy.deleteProperty invoke p σ.
Proof.
  intros Hbuiltin. unfold Proxy_Delete, bind.
  destruct (own (fakeWindow (this σ)) !! p) as [d|] eqn:Hown.
  - destruct (configurable d) eqn:Hconf.
    + rewrite (deleteProperty_configurable σ p d) by done.
      run_handler. unfold delete_invariant. cbn. by rewrite lookup_delete_eq.
    + by rewrite (deleteProperty_not_configurable σ p d).
  - rewrite deleteProperty_not_owned by done.
    run_handler. unfold delete_invariant. by rewrite Hown.
Qed.

(** C8, as the code has it.  While the method lookup
    [target.hasOwnProperty] finds the built-in: deleting a key the fake
    window does not own returns true and changes nothing; deleting a
    key it owns as a configurable property returns true and removes the
    key from the fake window and from [updatedValueSet]; deleting a key
    it owns as a property that cannot be reconfigured raises a TypeError
    and deletes nothing.  The checks of the engine on the handler's
    answer change none of the three: they are what the caller of the
    deletion gets. *)
Theorem deleteProperty_deletable σ p :
  hasOwnProperty_is_builtin (fakeWindow (this σ)) = true ->
  (own (fakeWindow (this σ)) !! p = None ->
     proxy.deleteProperty invoke p σ = (Returns true, σ))
  /\ (forall d, own (fakeWindow (this σ)) !! p = Some d -> configurable d = true ->
      exists σ',
        proxy.deleteProperty invoke p σ = (Returns true, σ')
        /\ own (fakeWindow (this σ')) = delete p (own (fakeWindow (this σ)))
        /\ updatedValueSet (this σ') = updatedValueSet (this σ) ∖ {[p]}
        /\ shared σ' = shared σ)
  /\ (forall d, own (fakeWindow (this σ)) !! p = Some d -> configurable d = false ->
      proxy.deleteProperty invoke p σ = (Throws TypeError, σ))
  /\ Proxy_Delete invoke p σ = proxy.deleteProperty invoke p σ.
Proof.
  intros Hbuiltin. split; [|split; [|split]].
  - by apply deleteProperty_not_owned.
  - intros d Hown Hconf. eexists.
    split; [by apply (deleteProperty_configurable σ p d)|done].
  - intros d Hown Hconf. by apply (deleteProperty_not_configurable σ p d).
  - by apply Proxy_Delete_is_deleteProperty.
Qed.

(** What a read returns depends on the module state through the
    environment and the build constant only. *)
Lemma get_value_depends w1 w2 s q :
  NODE_ENV w1 = NODE_ENV w2 -> env w1 = env w2 ->
  fst (run (proxy.get invoke getCreateElement q) w1 s)
  = fst (run (proxy.get invoke getCreateElement q) w2 s).
Proof.
  intros Hn He. by apply (blind_proxy_get invoke getCreateElement q).
Qed.

(** A write leaves the environment as it is unless the assignment goes
    to a setter, which is not code of the file. *)
Lemma set_keeps_env σ p v :
  (forall f, assign (fakeWindow (this σ)) p v <> ToSetter f) ->
  env (shared (snd (proxy.set invoke p v σ))) = env (shared σ).
Proof.
  intros Hsetter. unfold proxy.set. run_handler.
  destruct (sandboxRunning (this σ)); [|done]. run_handler.
  destruct (assign (fakeWindow (this σ)) p v) as [o'| |f]; run_handler; [done|done|].
  by destruct (Hsetter f).
Qed.

(** The environment is the only way from a write through one instance
    to a read through another. *)
Lemma set_reaches_reads_through_env σ p v (C : ProxySandbox) q :
  let σ' := snd (proxy.set invoke p v σ) in
  env (shared σ') = env (shared σ) ->
  fst (run (proxy.get invoke getCreateElement q) (shared σ') C)
  = fst (run (proxy.get invoke getCreateElement q) (shared σ) C).
Proof.
  intros σ' Henv. apply get_value_depends; [|exact Henv].
  by destruct (set_preserves σ p v) as (_ & _ & Hnode).
Qed.

(** C10.  A fresh instance is running: [active] leaves the module state
    and the instance as they are, counter included, and a write to a key
    for which the fake window stores assignments returns true and puts
    the key into [updatedValueSet], no [active] having been called. *)
Theorem fresh_instance_is_running w i n :
  let s := new i n w in
  sandboxRunning s = true
  /\ run active w s = (Returns tt, {| shared := w; this := s |})
  /\ (forall p v, storable (fakeWindow s) p = true ->
        exists σ', run (proxy.set invoke p v) w s = (Returns true, σ')
                   /\ p ∈ updatedValueSet (this σ')
                   /\ activeSandboxCount (shared σ') = activeSandboxCount w).
Proof.
  intros s. split; [done|]. split; [done|].
  intros p v Hst.
  destruct (set_running_storable {| shared := w; this := s |} p v eq_refl Hst)
    as (d & _ & Hset).
  eexists. split; [exact Hset|]. cbn. split; [set_solver|done].
Qed.

(** C4.  Two fresh instances over the same global object, and a key
    that is neither in the global object (nor in [Object.prototype],
    from which the global object inherits) nor answered by the get
    handler itself, as "counter" is: after the write of 1 through the
    first, a read through the first returns 1 and a read through the
    second returns undefined.  Moreover the write leaves the
    environment as it is and changes no read, of any key, through any
    other instance. *)
Theorem isolation w i j nameA nameB counter :
  has_in counter (rawWindow (env w)) = false ->
  objectPrototype (env w) !! counter = None ->
  is_reserved (NODE_ENV w) counter = false ->
  let A := new i nameA w in
  let B := new j nameB w in
  exists σ',
    run (proxy.set invoke counter (VNum 1)) w A = (Returns true, σ')
    /\ fst (run (proxy.get invoke getCreateElement counter) (shared σ') (this σ'))
         = Returns (VNum 1)
    /\ fst (run (proxy.get invoke getCreateElement counter) (shared σ') B)
         = Returns VUndefined
    /\ env (shared σ') = env w
    /\ (forall (C : ProxySandbox) q,
          fst (run (proxy.get invoke getCreateElement q) (shared σ') C)
          = fst (run (proxy.get invoke getCreateElement q) w C)).
Proof.
  intros Hraw Hproto Hres A B.
  destruct (new_absent i nameA w counter Hraw Hproto) as (HinA & HstA & HgbA).
  destruct (new_absent j nameB w counter Hraw Hproto) as (HinB & _ & _).
  destruct (set_stored_then_get {| shared := w; this := A |} counter (VNum 1))
    as (σ' & Hset & Hget & Hσ'); try done.
  exists σ'. split; [exact Hset|]. split; [|split; [|split]].
  - unfold run. destruct σ'. cbn in *. by rewrite Hget.
  - unfold run. rewrite get_absent; cbn; rewrite ?Hσ'; done.
  - by rewrite Hσ'.
  - intros C q. apply get_value_depends; by rewrite Hσ'.
Qed.

End Proxy.

(** ** The counter of active instances *)

(** C2.  From the module state right after loading (counter 0) and two
    fresh instances, [A.active(); B.active(); A.inactive(); B.inactive()]
    calls [clearSystemJsProps] with false for A and with false again for
    B, and leaves the counter at -2: a fresh instance is running already,
    so that neither [active()] counts it. *)
Theorem teardown_of_two_fresh_instances node_env e i j nameA nameB :
  let w := load node_env e in
  let w' := active_active_inactive_inactive w (new i nameA w) (new j nameB w) in
  noise w' = [ClearSystemJsProps (Proxy i) false; ClearSystemJsProps (Proxy j) false]
  /\ activeSandboxCount w' = (-2)%Z.
Proof. done. Qed.

(** The same calls on two instances that are not running, the counter
    being 0: false for the first, true for the second. *)
Lemma teardown_of_two_stopped_instances w A B :
  activeSandboxCount w = 0%Z ->
  sandboxRunning A = false ->
  sandboxRunning B = false ->
  let w' := active_active_inactive_inactive w A B in
  noise w' = (noise w ++ [ClearSystemJsProps (this_proxy A) false;
                          ClearSystemJsProps (this_proxy B) true])%list
  /\ activeSandboxCount w' = 0%Z.
Proof.
  intros Hc HA HB.
  unfold active_active_inactive_inactive, run, active, inactive. run_handler.
  rewrite HA. run_handler. rewrite HB. run_handler.
  cbn. rewrite Hc. cbn. by rewrite <- app_assoc.
Qed.

(** ** The counter under the contract of the callers *)

Lemma stopped_insert_running h w i s s' :
  instances h !! i = Some s ->
  sandboxRunning s' = true ->
  stopped {| module_state := w; instances := <[i := s']> (instances h) |}
  = if sandboxRunning s then stopped h else pred (stopped h).
Proof.
  intros Hi Hs'. unfold stopped. cbn.
  rewrite map_filter_insert_False by (cbn; congruence).
  rewrite map_filter_delete, map_size_delete, map_lookup_filter, Hi. cbn.
  destruct (sandboxRunning s) eqn:Hs; case_guard; cbn; congruence.
Qed.

Lemma stopped_insert_stopped h w i s s' :
  instances h !! i = Some s ->
  sandboxRunning s = true ->
  sandboxRunning s' = false ->
  stopped {| module_state := w; instances := <[i := s']> (instances h) |}
  = S (stopped h).
Proof.
  intros Hi Hs Hs'. unfold stopped. cbn.
  rewrite map_filter_insert_True by done.
  rewrite map_size_insert, map_lookup_filter, Hi. cbn.
  case_guard; cbn; congruence.
Qed.

Lemma stopped_positive h i s :
  instances h !! i = Some s -> sandboxRunning s = false -> (0 < stopped h)%nat.
Proof.
  intros Hi Hs. unfold stopped.
  assert (filter (fun kv => sandboxRunning kv.2 = false) (instances h) !! i = Some s) as Hf
    by (by apply map_lookup_filter_Some).
  destruct (size _) eqn:Hsize; [|lia].
  apply map_size_empty_inv in Hsize. rewrite Hsize in Hf. by rewrite lookup_empty in Hf.
Qed.

(** Under the contract the counter is minus the number of instances that
    are not running, and no teardown is told that it is the last. *)
Lemma counter_invariant cs : forall h,
  activeSandboxCount (module_state h) = (- Z.of_nat (stopped h))%Z ->
  never_last (module_state h) ->
  disciplined h cs ->
  let h' := lifecycle_run h cs in
  activeSandboxCount (module_state h') = (- Z.of_nat (stopped h'))%Z
  /\ never_last (module_state h').
Proof.
  induction cs as [|c cs IH]; intros h Hcount Hnever Hdisc; [done|].
  destruct Hdisc as [Hc Hdisc]. cbn. apply IH; [| |exact Hdisc]; clear IH Hdisc.
  - destruct c as [i|i]; cbn; unfold call_method.
    + destruct (instances h !! i) as [s|] eqn:Hi; [|done].
      unfold run, active. run_handler.
      destruct (sandboxRunning s) eqn:Hs; run_handler; cbn [module_state].
      * erewrite stopped_insert_running by done. by rewrite Hs.
      * erewrite stopped_insert_running by done. rewrite Hs. cbn.
        pose proof (stopped_positive h i s Hi Hs). lia.
    + destruct Hc as (s & Hi & Hs). rewrite Hi.
      unfold run, inactive. run_handler. cbn [module_state].
      erewrite stopped_insert_stopped by done. cbn. lia.
  - destruct c as [i|i]; cbn; unfold call_method.
    + destruct (instances h !! i) as [s|] eqn:Hi; [|done].
      unfold run, active. run_handler.
      by destruct (sandboxRunning s).
    + destruct Hc as (s & Hi & Hs). rewrite Hi.
      unfold run, inactive. run_handler. cbn.
      intros g b [Hin|Hin]%elem_of_app; [by eapply Hnever|].
      apply list_elem_of_singleton in Hin. inversion Hin; subst.
      apply Z.eqb_neq. lia.
Qed.

(** With the counter at 0, instances as the constructor leaves them and
    callers that keep the contract, no call of [inactive] ever passes
    true to [clearSystemJsProps]. *)
Lemma teardown_is_never_last h cs :
  activeSandboxCount (module_state h) = 0%Z ->
  noise (module_state h) = [] ->
  (forall i s, instances h !! i = Some s -> sandboxRunning s = true) ->
  disciplined h cs ->
  never_last (module_state (lifecycle_run h cs)).
Proof.
  intros Hcount Hnoise Hfresh Hdisc.
  apply counter_invariant; [|by intros g b; rewrite Hnoise; inversion 1|exact Hdisc].
  assert (stopped h = 0%nat) as ->; [|by rewrite Hcount].
  unfold stopped. apply map_size_empty_iff, map_empty_filter_2.
  intros i s Hi. cbn. by rewrite (Hfresh i s Hi).
Qed.

(** ** The handler of documentProxy *)

Lemma remove_configurable o p :
  (forall d, own o !! p = Some d -> configurable d = true) ->
  remove o p = Some (with_own (delete p (own o)) o).
Proof.
  intros Hconf. unfold remove.
  destruct (own o !! p) as [d|] eqn:Hown.
  - by rewrite (Hconf d).
  - rewrite delete_id by done. by destruct o.
Qed.

(** Deleting the key [attachDocProxySymbol] removes it and createElement,
    when both can be deleted. *)
Lemma deleteProperty_tag_removes_both σ :
  (forall p d, own (fakeDocument (this σ)) !! p = Some d -> configurable d = true) ->
  exists σ',
    documentProxy.deleteProperty attachDocProxySymbol σ = (Returns true, σ')
    /\ own (fakeDocument (this σ')) !! attachDocProxySymbol = None
    /\ own (fakeDocument (this σ')) !! KStr "createElement" = None.
Proof.
  intros Hconf. unfold documentProxy.deleteProperty.
  rewrite bool_decide_eq_true_2 by done. cbn [orb]. run_handler.
  rewrite remove_configurable by eauto. run_handler.
  rewrite remove_configurable.
  - run_handler. eexists. split; [reflexivity|]. cbn.
    rewrite lookup_delete_ne by done. by rewrite !lookup_delete_eq.
  - cbn. intros d. rewrite lookup_delete_ne by done. eauto.
Qed.

(** Deleting the key createElement leaves the key [attachDocProxySymbol]
    where it is, however the deletion ends. *)
Lemma deleteProperty_createElement_keeps_tag σ :
  let σ' := snd (documentProxy.deleteProperty (KStr "createElement") σ) in
  own (fakeDocument (this σ')) !! attachDocProxySymbol
  = own (fakeDocument (this σ)) !! attachDocProxySymbol.
Proof.
  unfold documentProxy.deleteProperty. cbn [bool_decide orb].
  rewrite (bool_decide_eq_true_2 (KStr "createElement" = KStr "createElement")) by done.
  rewrite orb_true_r. run_handler.
  unfold remove.
  destruct (own (fakeDocument (this σ)) !! KStr "createElement") as [d|] eqn:Hce;
    [destruct (configurable d)|]; run_handler; cbn; rewrite ?Hce; cbn;
    rewrite ?lookup_delete_eq; cbn; try done.
  by rewrite lookup_delete_ne.
Qed.

(** C5.  On the instance A of the example, once its document has been
    read: the document proxy holds the key [attachDocProxySymbol] and
    createElement; deleting createElement returns true and removes
    createElement, and the key [attachDocProxySymbol] stays.  The next
    read of the document therefore does not set createElement again, and
    reading createElement from the document proxy gives undefined. *)
Theorem deleteProperty_createElement_on_example :
  owns (fakeDocument (this Example.tagged)) attachDocProxySymbol = true
  /\ owns (fakeDocument (this Example.tagged)) (KStr "createElement") = true
  /\ fst (documentProxy.deleteProperty (KStr "createElement") Example.tagged) = Returns true
  /\ owns (fakeDocument (this Example.untagged)) (KStr "createElement") = false
  /\ owns (fakeDocument (this Example.untagged)) attachDocProxySymbol = true
  /\ fst (documentProxy.get (KStr "createElement")
            (snd (proxy.get Example.invoke Example.getCreateElement (KStr "document")
                    Example.untagged)))
     = Returns VUndefined.
Proof. repeat split; vm_compute; reflexivity. Qed.

(** ** The claims at concrete inputs *)

(** C1 fails as it is stated.  On the fresh instance A of the example,
    which is running, for keys that are not in [propertiesWithGetter] and
    that the get handler does not answer by itself: the write of 0 to x,
    a key the global object lacks, is followed by a read of undefined;
    the write of 0 to shared, which the global object holds with 5, is
    followed by a read of 5; the write of a function to x is followed by
    a read of that function bound to the global object; and the write to
    NaN, which the fake window holds read-only, raises. *)
Lemma set_then_get_not_the_value_written :
  sandboxRunning Example.A = true
  /\ getter_backed Example.A (KStr "x") = false
  /\ is_reserved "production" (KStr "x") = false
  /\ getter_backed Example.A (KStr "shared") = false
  /\ is_reserved "production" (KStr "shared") = false
  /\ getter_backed Example.A (KStr "NaN") = false
  /\ is_reserved "production" (KStr "NaN") = false
  /\ fst (Example.set_then_get (KStr "x") (VNum 0) Example.start) = Returns VUndefined
  /\ fst (Example.set_then_get (KStr "shared") (VNum 0) Example.start) = Returns (VNum 5)
  /\ fst (Example.set_then_get (KStr "x") (VFun (Native 9)) Example.start)
     = Returns (VFun (Bound (Native 9) RawWindow))
  /\ fst (proxy.set Example.invoke (KStr "NaN") (VNum 3) Example.start) = Throws TypeError.
Proof. repeat split; vm_compute; reflexivity. Qed.

Lemma set_then_get_truthy_witness :
  exists σ',
    proxy.set Example.invoke (KStr "shared") (VNum 7) Example.start = (Returns true, σ')
    /\ proxy.get Example.invoke Example.getCreateElement (KStr "shared") σ'
       = (Returns (VNum 7), σ').
Proof.
  destruct (set_then_get_truthy Example.invoke Example.getCreateElement
              Example.start (KStr "shared") (VNum 7))
    as (σ' & Hset & Hget & _); [vm_compute; reflexivity ..|].
  exists σ'. split; [exact Hset|exact Hget].
Defined.

(** C3 fails as it is stated.  On the fresh instance A of the example:
    the key [Symbol.unscopables] is neither in the fake window nor in the
    global object, and its read returns the object [unscopables]; the key
    Float32Array is in neither, and the has handler answers true. *)
Lemma absent_key_answered_all_the_same :
  has_in (KSym SymUnscopables) (fakeWindow Example.A) = false
  /\ has_in (KSym SymUnscopables) (rawWindow Example.browser) = false
  /\ fst (proxy.get Example.invoke Example.getCreateElement (KSym SymUnscopables) Example.start)
     = Returns (VRef Unscopables)
  /\ has_in (KStr "Float32Array") (fakeWindow Example.A) = false
  /\ has_in (KStr "Float32Array") (rawWindow Example.browser) = false
  /\ fst (proxy.has (KStr "Float32Array") Example.start) = Returns true.
Proof. repeat split; vm_compute; reflexivity. Qed.

Lemma absent_key_witness :
  proxy.has (KStr "counter") Example.start = (Returns false, Example.start)
  /\ proxy.get Example.invoke Example.getCreateElement (KStr "counter") Example.start
     = (Returns VUndefined, Example.start).
Proof.
  destruct (absent_key Example.invoke Example.getCreateElement Example.start (KStr "counter"))
    as [Hhas Hget]; [vm_compute; reflexivity ..|].
  split; [apply Hhas|apply Hget]; vm_compute; reflexivity.
Defined.

Lemma isolation_witness :
  exists σ',
    run (proxy.set Example.invoke (KStr "counter") (VNum 1)) Example.world Example.A
      = (Returns true, σ')
    /\ fst (run (proxy.get Example.invoke Example.getCreateElement (KStr "counter"))
              (shared σ') (this σ')) = Returns (VNum 1)
    /\ fst (run (proxy.get Example.invoke Example.getCreateElement (KStr "counter"))
              (shared σ') Example.B) = Returns VUndefined.
Proof.
  destruct (isolation Example.invoke Example.getCreateElement Example.world
              1 2 "A" "B" (KStr "counter"))
    as (σ' & Hset & HA & HB & _); [vm_compute; reflexivity ..|].
  exists σ'. split; [exact Hset|]. split; [exact HA|exact HB].
Defined.

(** C6 fails as it is stated.  On the fresh instance A of the example,
    the key document is in [propertiesWithGetter] and the global object
    answers it with the document: its read through the handle returns
    the document proxy of A, as it does in the state a write to document
    leaves.  And the key live is in [propertiesWithGetter] and the global
    object answers it with a function: the read that follows a write to
    live returns that function bound to the global object, which is
    another value. *)
Lemma getter_backed_read_is_not_the_live_value :
  sandboxRunning Example.A = true
  /\ getter_backed Example.A (KStr "document") = true
  /\ read (rawWindow Example.browser) (KStr "document") = VRef RawDocument
  /\ fst (proxy.get Example.invoke Example.getCreateElement (KStr "document") Example.start)
     = Returns (VRef (DocumentProxy 1))
  /\ fst (proxy.get Example.invoke Example.getCreateElement (KStr "document")
            (snd (proxy.set Example.invoke (KStr "document") (VNum 3) Example.start)))
     = Returns (VRef (DocumentProxy 1))
  /\ getter_backed Example.A (KStr "live") = true
  /\ is_reserved "production" (KStr "live") = false
  /\ read (rawWindow Example.browser) (KStr "live") = VFun (Native 6)
  /\ fst (Example.set_then_get (KStr "live") (VNum 3) Example.start)
     = Returns (VFun (Bound (Native 6) RawWindow))
  /\ VFun (Bound (Native 6) RawWindow) <> VFun (Native 6).
Proof. repeat split; try (vm_compute; reflexivity). discriminate. Qed.

Lemma set_then_get_getter_backed_witness :
  let σ' := snd (proxy.set Example.invoke (KStr "live") (VNum 3) Example.start) in
  getter_backed Example.A (KStr "live") = true
  /\ proxy.get Example.invoke Example.getCreateElement (KStr "live") σ'
     = (Returns (getTargetValue RawWindow (read (rawWindow (env (shared σ'))) (KStr "live"))), σ').
Proof.
  intros σ'. split; [vm_compute; reflexivity|].
  apply (set_then_get_getter_backed Example.invoke Example.getCreateElement
           Example.start (KStr "live") (VNum 3)
           (fst (proxy.set Example.invoke (KStr "live") (VNum 3) Example.start)) σ').
  - vm_compute. reflexivity.
  - vm_compute. reflexivity.
  - apply surjective_pairing.
Defined.

(** On the instance A of the example, once deactivated, the same holds
    of a write to document, whose copy in the fake window is an accessor
    without a setter that cannot be reconfigured; a write to x, which
    the fake window does not own, returns true. *)
Lemma set_inactive_on_example :
  sandboxRunning (this Example.deactivated) = false
  /\ fst (proxy.set Example.invoke (KStr "document") (VNum 3) Example.deactivated)
     = Returns true
  /\ Proxy_Set Example.invoke (KStr "document") (VNum 3) Example.deactivated
     = (Throws TypeError, Example.deactivated)
  /\ Proxy_Set Example.invoke (KStr "x") (VNum 3) Example.deactivated
     = (Returns true, Example.deactivated).
Proof.
  split; [reflexivity|]. split; [vm_compute; reflexivity|].
  split; rewrite Proxy_Set_not_running by reflexivity; f_equal.
Qed.

Lemma set_inactive_read_only_raises_witness :
  own (rawWindow (env Example.world)) !! KStr "NaN" = Some (Data VNaN false false false)
  /\ sandboxRunning (this Example.deactivated) = false
  /\ proxy.set Example.invoke (KStr "NaN") (VNum 3) Example.deactivated
     = (Returns true, Example.deactivated)
  /\ Proxy_Set Example.invoke (KStr "NaN") (VNum 3) Example.deactivated
     = (Throws TypeError, Example.deactivated).
Proof.
  split; [vm_compute; reflexivity|].
  apply (set_inactive_read_only_raises Example.invoke Example.world 1 "A"
           (KStr "NaN") VNaN false (VNum 3)).
  - vm_compute; reflexivity.
  - reflexivity.
  - vm_compute; reflexivity.
  - done.
Defined.

(** C8 fails as it is stated.  On the fresh instance A of the example,
    the fake window owns document, copied from the global object with a
    descriptor that is not configurable: deleting it raises and the fake
    window keeps it.  And once hasOwnProperty has been written through
    the handle, deleting a key the fake window does not own raises. *)
Lemma deleteProperty_raises :
  owns (fakeWindow Example.A) (KStr "document") = true
  /\ hasOwnProperty_is_builtin (fakeWindow Example.A) = true
  /\ fst (proxy.deleteProperty Example.invoke (KStr "document") Example.start)
     = Throws TypeError
  /\ owns (fakeWindow (this (snd (proxy.deleteProperty Example.invoke (KStr "document")
                                    Example.start)))) (KStr "document") = true
  /\ (let σ := snd (proxy.set Example.invoke (KStr "hasOwnProperty") (VNum 1) Example.start) in
      owns (fakeWindow (this σ)) (KStr "x") = false
      /\ fst (proxy.deleteProperty Example.invoke (KStr "x") σ) = Throws TypeError).
Proof. repeat split; vm_compute; reflexivity. Qed.

Lemma deleteProperty_deletable_witness :
  proxy.deleteProperty Example.invoke (KStr "x") Example.start = (Returns true, Example.start)
  /\ (exists σ',
       proxy.deleteProperty Example.invoke (KStr "top") Example.start = (Returns true, σ')
       /\ own (fakeWindow (this σ')) !! KStr "top" = None)
  /\ proxy.deleteProperty Example.invoke (KStr "NaN") Example.start
     = (Throws TypeError, Example.start)
  /\ Proxy_Delete Example.invoke (KStr "NaN") Example.start
     = (Throws TypeError, Example.start).
Proof.
  destruct (deleteProperty_deletable Example.invoke Example.start (KStr "x"))
    as [Habsent _]; [vm_compute; reflexivity|].
  destruct (deleteProperty_deletable Example.invoke Example.start (KStr "top"))
    as (_ & Hown & _); [vm_compute; reflexivity|].
  destruct (deleteProperty_deletable Example.invoke Example.start (KStr "NaN"))
    as (_ & _ & Hfixed & Hcaller); [vm_compute; reflexivity|].
  split; [apply Habsent; vm_compute; reflexivity|].
  split.
  - destruct (Hown (Data (VRef RawWindow) true true true)) as (σ' & Hdel & Hgone & _);
      [vm_compute; reflexivity ..|].
    exists σ'. split; [exact Hdel|]. rewrite Hgone. apply lookup_delete_eq.
  - assert (Hraise := Hfixed (Data VNaN false false false)).
    rewrite Hcaller. split; apply Hraise; vm_compute; reflexivity.
Defined.


Lemma fresh_instance_is_running_witness :
  storable (fakeWindow Example.A) (KStr "x") = true
  /\ exists σ',
       run (proxy.set Example.invoke (KStr "x") (VNum 1)) Example.world Example.A
         = (Returns true, σ')
       /\ KStr "x" ∈ updatedValueSet (this σ').
Proof.
  split; [vm_compute; reflexivity|].
  destruct (fresh_instance_is_running Example.invoke Example.getCreateElement
              Example.world 1 "A") as (_ & _ & Hset).
  destruct (Hset (KStr "x") (VNum 1)) as (σ' & H & Hin & _); [vm_compute; reflexivity|].
  exists σ'. split; [exact H|exact Hin].
Defined.

(** * Further properties *)

(** ** The snapshot and the handlers of a fresh instance *)

(** X1.  Of a fresh instance, the keys of [propertiesWithGetter] are
    exactly the keys the fake window owns as accessors. *)
Theorem propertiesWithGetter_are_the_accessors i n w p :
  getter_backed (new i n w) p = true
  <-> exists g f e c, own (fakeWindow (new i n w)) !! p = Some (Accessor g f e c).
Proof.
  rewrite new_getter_backed, new_fakeWindow_own.
  destruct (own (rawWindow (env w)) !! p) as [d|]; [|split; [done|by intros (?&?&?&?&?)]].
  unfold copied_descriptor.
  destruct (is_name p), (configurable d), (is_self_reference (NODE_ENV w) p), d;
    cbn; split; try done; try (by intros (?&?&?&?&?)); eauto.
Qed.

Section Fresh.

Variable invoke : fn -> ref -> list value -> Env -> result value * Env.
Variable getCreateElement : value -> value.

(** The get handler of a fresh instance shows the global object as it
    is: for a key that the handler does not answer by itself and that
    [Object.prototype] does not have, it returns
    [getTargetValue(rawWindow, rawWindow[p])] and changes nothing. *)
Lemma fresh_get w i n p :
  is_reserved (NODE_ENV w) p = false ->
  objectPrototype (env w) !! p = None ->
  run (proxy.get invoke getCreateElement p) w (new i n w)
  = (Returns (getTargetValue RawWindow (read (rawWindow (env w)) p)),
     {| shared := w; this := new i n w |}).
Proof.
  intros Hres Hproto. unfold run.
  rewrite get_not_reserved by exact Hres. cbn [shared this].
  do 2 f_equal.
  assert (Hself : is_self_reference (NODE_ENV w) p = false).
  { unfold is_reserved in Hres.
    apply orb_false_iff in Hres as [Hres _].
    apply orb_false_iff in Hres as [Hres _].
    by apply orb_false_iff in Hres as [_ Hres]. }
  pose proof (new_fakeWindow_own i n w p) as Hown.
  pose proof (new_getter_backed i n w p) as Hgb.
  pose proof (new_fields i n w) as (_ & _ & _ & Hinh & _).
  unfold read, lookup_property.
  rewrite Hgb, Hown, Hinh. clear Hgb Hown Hinh.
  destruct (own (rawWindow (env w)) !! p) as [d|] eqn:Hraw.
  - destruct (is_name p && negb (configurable d)) eqn:Hcopied; cbn.
    + unfold copied_descriptor. rewrite Hself.
      destruct d as [v wr en cf|g f en cf]; cbn; [|done].
      unfold or_else. by destruct (truthy v).
    + by rewrite Hproto.
  - cbn. by rewrite Hproto.
Qed.

(** A function and the same function bound to a receiver are two
    functions. *)
Lemma Bound_ne f r : Bound f r <> f.
Proof. induction f as [| | | |f IH r']; try done. intros [= H <-]. by apply IH. Qed.

(** That answer is the value the copy in the fake window has, unless the
    copy can be neither written nor reconfigured and holds a function,
    which [getTargetValue] has rebound. *)
Lemma fresh_get_invariant w i n p :
  is_self_reference (NODE_ENV w) p = false ->
  let v := read (rawWindow (env w)) p in
  get_invariant (fakeWindow (new i n w)) p (getTargetValue RawWindow v)
  = negb (is_name p && frozen (rawWindow (env w)) p && is_function v).
Proof.
  intros Hself v. subst v.
  unfold get_invariant, frozen, read, lookup_property.
  rewrite new_fakeWindow_own.
  destruct (own (rawWindow (env w)) !! p) as [d|] eqn:Hraw; [|by rewrite andb_false_r].
  unfold copied_descriptor. rewrite Hself.
  destruct (is_name p); [|done].
  destruct d as [u [|] en [|]|[g|] f en [|]]; cbn; try done.
  unfold same_value.
  destruct u; cbn; try by rewrite bool_decide_eq_true_2.
  apply bool_decide_eq_false_2. intros [= H]. by apply Bound_ne in H.
Qed.

(** X2.  A fresh instance shows the global object as it is, as far as
    the engine lets it.  For a key that the get handler does not answer
    by itself and that [Object.prototype] does not have, the handler
    returns [getTargetValue(rawWindow, rawWindow[p])].  That is what a
    read through the handle returns, with one exception: when the global
    object owns the key, a string, as a data property that can be
    neither written nor reconfigured and whose value is a function, the
    fake window holds the same property, the handler answers the
    function rebound, and the read raises a TypeError. *)
Theorem fresh_read_is_transparent w i n p :
  is_reserved (NODE_ENV w) p = false ->
  objectPrototype (env w) !! p = None ->
  let v := read (rawWindow (env w)) p in
  fst (run (proxy.get invoke getCreateElement p) w (new i n w))
  = Returns (getTargetValue RawWindow v)
  /\ fst (run (Proxy_Get invoke getCreateElement p) w (new i n w))
     = if is_name p && frozen (rawWindow (env w)) p && is_function v
       then Throws TypeError
       else Returns (getTargetValue RawWindow v).
Proof.
  intros Hres Hproto v.
  assert (Hself : is_self_reference (NODE_ENV w) p = false).
  { unfold is_reserved in Hres.
    apply orb_false_iff in Hres as [Hres _].
    apply orb_false_iff in Hres as [Hres _].
    by apply orb_false_iff in Hres as [_ Hres]. }
  pose proof (fresh_get w i n p Hres Hproto) as Hget. fold v in Hget.
  split; [by rewrite Hget|].
  unfold run, Proxy_Get, bind in *. rewrite Hget. run_handler.
  pose proof (fresh_get_invariant w i n p Hself) as Hinv. cbn zeta in Hinv. fold v in Hinv.
  rewrite Hinv.
  by destruct (is_name p && frozen (rawWindow (env w)) p && is_function v).
Qed.

(** A write to a key the fake window refuses raises a TypeError and
    leaves everything as it was. *)
Lemma set_rejected σ p v :
  sandboxRunning (this σ) = true ->
  assign (fakeWindow (this σ)) p v = Rejected ->
  proxy.set invoke p v σ = (Throws TypeError, σ).
Proof.
  intros Hrun Hassign. unfold proxy.set. run_handler.
  rewrite Hrun. run_handler. by rewrite Hassign.
Qed.

(** X3.  Through a fresh instance, a write to a key that the global
    object owns as a data property that can be neither written nor
    reconfigured (a self reference apart), or as an accessor without a
    setter that cannot be reconfigured, raises a TypeError; the key is
    not recorded and no collaborator is called. *)
Theorem fresh_set_read_only_raises w i n p v d :
  own (rawWindow (env w)) !! p = Some d ->
  is_name p = true ->
  match d with
  | Data _ writable _ cf =>
      writable = false /\ cf = false /\ is_self_reference (NODE_ENV w) p = false
  | Accessor _ f _ cf => f = None /\ cf = false
  end ->
  run (proxy.set invoke p v) w (new i n w)
  = (Throws TypeError, {| shared := w; this := new i n w |}).
Proof.
  intros Hraw Hname Hd. unfold run. apply set_rejected; [done|]. cbn [this].
  unfold assign. rewrite new_fakeWindow_own, Hraw, Hname.
  unfold copied_descriptor.
  destruct d as [u wr en cf|g f en cf].
  - destruct Hd as (-> & -> & ->). done.
  - destruct Hd as (-> & ->). cbn. by destruct (is_self_reference (NODE_ENV w) p).
Qed.

(** X4.  Through a fresh instance, a write to a key that the global
    object owns as an accessor with a setter that cannot be reconfigured
    calls that setter with the fake window as its receiver, not the
    global object.  When the setter returns, the write returns true, the
    key is recorded and the collaborator is called; when it raises, the
    write raises and records nothing.  The fake window is not changed. *)
Theorem fresh_set_calls_setter_on_fakeWindow w i n p v g f e :
  own (rawWindow (env w)) !! p = Some (Accessor g (Some f) e false) ->
  is_name p = true ->
  run (proxy.set invoke p v) w (new i n w)
  = match invoke f (FakeWindow i) [v] (env w) with
    | (Returns _, e') =>
        (Returns true,
         {| shared := record_call (InterceptSystemJsProps p v) (with_env e' w);
            this := with_updatedValueSet ({[p]} ∪ ∅) (new i n w) |})
    | (Throws err, e') =>
        (Throws err, {| shared := with_env e' w; this := new i n w |})
    end.
Proof.
  intros Hraw Hname.
  assert (Hassign : assign (fakeWindow (new i n w)) p v = ToSetter f).
  { unfold assign. rewrite new_fakeWindow_own, Hraw, Hname. cbn.
    unfold copied_descriptor. by destruct (is_self_reference (NODE_ENV w) p). }
  unfold run, proxy.set. run_handler.
  change (sandboxRunning (new i n w)) with true. run_handler.
  rewrite Hassign. run_handler.
  change (identity (new i n w)) with i.
  by destruct (invoke f (FakeWindow i) [v] (env w)) as [[r|err] e'].
Qed.

End Fresh.

(** ** Writes, deletions and what the other handlers see of them *)

Lemma read_with_own_insert_ne o p q d :
  p <> q -> read (with_own (<[p := d]> (own o)) o) q = read o q.
Proof.
  intros Hne. unfold read, lookup_property. cbn. by rewrite lookup_insert_ne.
Qed.

Lemma with_own_own o : with_own (own o) o = o.
Proof. by destruct o. Qed.

Lemma with_fakeWindow_fakeWindow s : with_fakeWindow (fakeWindow s) s = s.
Proof. by destruct s. Qed.

Lemma with_updatedValueSet_fakeWindow u o s :
  with_updatedValueSet u (with_fakeWindow o s)
  = with_fakeWindow o (with_updatedValueSet u s).
Proof. done. Qed.


Section Overlay.

Variable invoke : fn -> ref -> list value -> Env -> result value * Env.
Variable getCreateElement : value -> value.

(** The fake window answers [hasOwnProperty] with the built-in. *)
Lemma fakeWindow_hasOwnProperty_builtin σ p :
  hasOwnProperty_is_builtin (fakeWindow (this σ)) = true ->
  fakeWindow_hasOwnProperty invoke p σ = (Returns (VBool (owns (fakeWindow (this σ)) p)), σ).
Proof using invoke.
  intros Hb. apply bool_decide_eq_true in Hb.
  unfold fakeWindow_hasOwnProperty, object_hasOwnProperty. run_handler. by rewrite Hb.
Qed.

Lemma rawWindow_hasOwnProperty_builtin σ p :
  hasOwnProperty_is_builtin (rawWindow (env (shared σ))) = true ->
  rawWindow_hasOwnProperty invoke p σ
  = (Returns (VBool (owns (rawWindow (env (shared σ))) p)), σ).
Proof using invoke.
  intros Hb. apply bool_decide_eq_true in Hb.
  unfold rawWindow_hasOwnProperty, object_hasOwnProperty. run_handler. by rewrite Hb.
Qed.


(** X5.  Whatever value a write stores, a falsy one included, the other
    handlers see it: the descriptor of the key is a data descriptor with
    that value, taken from the fake window, the closure hasOwnProperty
    and the has handler answer true, and the key is in
    [updatedValueSet]. *)
Theorem set_then_owned σ p v (m : gmap key SymbolTarget) :
  sandboxRunning (this σ) = true ->
  storable (fakeWindow (this σ)) p = true ->
  hasOwnProperty_is_builtin (fakeWindow (this σ)) = true ->
  p <> KStr "hasOwnProperty" ->
  exists σ' wr en cf,
    proxy.set invoke p v σ = (Returns true, σ')
    /\ getOwnPropertyDescriptor invoke m p σ'
       = (Returns (Some (Data v wr en cf), <[p := FromTarget]> m), σ')
    /\ hasOwnProperty invoke p σ' = (Returns (VBool true), σ')
    /\ proxy.has p σ' = (Returns true, σ')
    /\ p ∈ updatedValueSet (this σ').
Proof using invoke.
  intros Hrun Hst Hb Hp.
  destruct (set_running_storable invoke σ p v Hrun Hst) as (d & (wr & en & cf & ->) & Hset).
  eexists _, wr, en, cf. split; [exact Hset|].
  match goal with |- context [getOwnPropertyDescriptor _ _ _ ?s] => set (σ' := s) end.
  assert (Hb' : hasOwnProperty_is_builtin (fakeWindow (this σ')) = true).
  { unfold hasOwnProperty_is_builtin in *. cbn. by rewrite read_with_own_insert_ne. }
  assert (Hown : own (fakeWindow (this σ')) !! p = Some (Data v wr en cf))
    by (cbn; apply lookup_insert_eq).
  assert (Howns : owns (fakeWindow (this σ')) p = true)
    by (unfold owns; rewrite Hown; by apply bool_decide_eq_true_2).
  split; [|split; [|split]].
  - unfold getOwnPropertyDescriptor, bind.
    rewrite fakeWindow_hasOwnProperty_builtin by exact Hb'. rewrite Howns. cbn [truthy].
    unfold gets, ret. by rewrite Hown.
  - unfold hasOwnProperty, bind.
    rewrite fakeWindow_hasOwnProperty_builtin by exact Hb'. by rewrite Howns.
  - unfold proxy.has, gets. do 2 f_equal.
    assert (has_in p (fakeWindow (this σ')) = true) as ->; [|by rewrite orb_true_r].
    unfold has_in, lookup_property. rewrite Hown. by apply bool_decide_eq_true_2.
  - cbn. by apply elem_of_union_l, elem_of_singleton.
Qed.



End Overlay.

(** ** The lifecycle methods *)

(** X9.  [inactive()] followed by [active()] brings a running instance and
    the counter back to what they were: the fake window,
    [updatedValueSet] and the document proxy are kept, and the module
    state has one call of [clearSystemJsProps] more. *)
Theorem inactive_then_active_resumes σ :
  sandboxRunning (this σ) = true ->
  (inactive ;; active) σ
  = (Returns tt,
     {| shared :=
          record_call
            (ClearSystemJsProps (this_proxy (this σ))
               (activeSandboxCount (shared σ) - 1 =? 0)%Z)
            (shared σ);
        this := this σ |}).
Proof.
  intros Hrun. unfold inactive, active. run_handler. cbn.
  destruct σ as [[node e u c l] s]. cbn in *.
  unfold record_call, with_activeSandboxCount. cbn.
  replace (c - 1 + 1)%Z with c by lia.
  destruct s. cbn in *. by subst.
Qed.

(** X10.  [active()] twice is [active()] once: the counter goes up by
    one at most. *)
Theorem active_twice σ : (active ;; active) σ = active σ.
Proof.
  unfold active. run_handler. by destruct (sandboxRunning (this σ)).
Qed.

(** X11.  In a host that starts with the counter at 0 and with instances
    as the constructor leaves them, and whose calls keep the contract
    ([inactive] on running instances only), the counter is at all times
    minus the number of instances that are not running, and no call of
    [clearSystemJsProps] has been told that all instances are inactive. *)
Theorem counter_is_minus_the_stopped h cs :
  activeSandboxCount (module_state h) = 0%Z ->
  noise (module_state h) = [] ->
  (forall i s, instances h !! i = Some s -> sandboxRunning s = true) ->
  disciplined h cs ->
  let h' := lifecycle_run h cs in
  activeSandboxCount (module_state h') = (- Z.of_nat (stopped h'))%Z
  /\ never_last (module_state h').
Proof.
  intros Hcount Hnoise Hfresh Hdisc.
  apply counter_invariant; [|by intros g b; rewrite Hnoise; inversion 1|exact Hdisc].
  assert (stopped h = 0%nat) as ->; [|by rewrite Hcount].
  unfold stopped. apply map_size_empty_iff, map_empty_filter_2.
  intros i s Hi. cbn. by rewrite (Hfresh i s Hi).
Qed.

(** ** The document proxy *)

Lemma assign_storable_writable o p v :
  storable o p = true ->
  exists e c, assign o p v = Stored (with_own (<[p := Data v true e c]> (own o)) o).
Proof.
  unfold storable, assign. intros H.
  destruct (own o !! p) as [[u w e c|g f e c]|] eqn:Hown.
  - subst w. eauto.
  - discriminate.
  - destruct (inherited o !! p) as [[u w e c|g f e c]|] eqn:Hinh.
    + apply andb_true_iff in H as [-> ->]. eauto.
    + discriminate.
    + rewrite H. eauto.
Qed.

Lemma assign_same o p v e c :
  own o !! p = Some (Data v true e c) -> assign o p v = Stored o.
Proof.
  intros Hown. unfold assign. rewrite Hown.
  by rewrite (insert_id _ _ _ Hown), with_own_own.
Qed.

Lemma storable_with_own_insert_ne o p q d :
  p <> q -> storable (with_own (<[p := d]> (own o)) o) q = storable o q.
Proof. intros Hne. unfold storable. cbn. by rewrite lookup_insert_ne. Qed.

Lemma read_with_own_insert_eq m o p v w e c :
  read (with_own (<[p := Data v w e c]> m) o) p = v.
Proof. unfold read, lookup_property. cbn. by rewrite lookup_insert_eq. Qed.

Lemma read_with_own_insert_ne_2 m o p q d v w e c :
  p <> q -> read (with_own (<[p := d]> (<[q := Data v w e c]> m)) o) q = v.
Proof.
  intros Hne. unfold read, lookup_property. cbn.
  by rewrite lookup_insert_ne, lookup_insert_eq.
Qed.

Lemma strict_equal_refl_ref r : strict_equal (VRef r) (VRef r) = true.
Proof. unfold strict_equal. by apply bool_decide_eq_true_2. Qed.

Lemma with_fakeDocument_fakeDocument s : with_fakeDocument (fakeDocument s) s = s.
Proof. by destruct s. Qed.

Section Document.

Variable invoke : fn -> ref -> list value -> Env -> result value * Env.
Variable getCreateElement : value -> value.

(** The write of a tag that differs from the one kept. *)
Lemma documentProxy_set_new_tag σ v :
  storable (fakeDocument (this σ)) attachDocProxySymbol = true ->
  storable (fakeDocument (this σ)) (KStr "createElement") = true ->
  strict_equal (read (fakeDocument (this σ)) attachDocProxySymbol) v = false ->
  exists e c e' c',
    documentProxy.set invoke getCreateElement attachDocProxySymbol v σ
    = (Returns true,
       {| shared := shared σ;
          this := with_fakeDocument
                    (with_own
                       (<[KStr "createElement" :=
                            Data (getTargetValue RawDocument (getCreateElement v)) true e' c']>
                          (<[attachDocProxySymbol := Data v true e c]>
                             (own (fakeDocument (this σ)))))
                       (fakeDocument (this σ)))
                    (this σ) |}).
Proof.
  intros Htag Hce Hne.
  destruct (assign_storable_writable _ _ v Htag) as (e & c & Ha1).
  pose proof (storable_with_own_insert_ne (fakeDocument (this σ)) attachDocProxySymbol
                (KStr "createElement") (Data v true e c) ltac:(done)) as Hce'.
  rewrite Hce in Hce'.
  destruct (assign_storable_writable _ _
              (getTargetValue RawDocument (getCreateElement v)) Hce') as (e' & c' & Ha2).
  exists e, c, e', c'.
  unfold documentProxy.set. run_handler.
  rewrite Hne, bool_decide_eq_true_2 by done. cbn [andb negb]. run_handler.
  rewrite Ha1. run_handler. cbn [fakeDocument with_fakeDocument].
  rewrite Ha2. reflexivity.
Qed.

(** X12.  On a document proxy whose target stores assignments to the
    tag key and to createElement, the write of a tag that differs from
    the one kept returns true and leaves the module state as it is;
    afterwards the tag reads as the value written and createElement
    reads as [getTargetValue(rawDocument, getCreateElement(v))], the
    element-creation function of the new owner. *)
Theorem documentProxy_tag_write σ v :
  storable (fakeDocument (this σ)) attachDocProxySymbol = true ->
  storable (fakeDocument (this σ)) (KStr "createElement") = true ->
  strict_equal (read (fakeDocument (this σ)) attachDocProxySymbol) v = false ->
  exists σ',
    documentProxy.set invoke getCreateElement attachDocProxySymbol v σ = (Returns true, σ')
    /\ shared σ' = shared σ
    /\ documentProxy.get attachDocProxySymbol σ' = (Returns v, σ')
    /\ documentProxy.get (KStr "createElement") σ'
       = (Returns (getTargetValue RawDocument (getCreateElement v)), σ').
Proof.
  intros Htag Hce Hne.
  destruct (documentProxy_set_new_tag σ v Htag Hce Hne) as (e & c & e' & c' & Hset).
  eexists. split; [exact Hset|]. split; [done|]. split.
  - unfold documentProxy.get, gets.
    rewrite bool_decide_eq_false_2, bool_decide_eq_true_2 by done.
    cbn [orb this fakeDocument with_fakeDocument].
    by rewrite read_with_own_insert_ne_2.
  - unfold documentProxy.get, gets.
    rewrite !bool_decide_eq_false_2, bool_decide_eq_true_2 by done.
    cbn [orb this fakeDocument with_fakeDocument].
    by rewrite read_with_own_insert_eq.
Qed.

(** The write of the tag already kept changes nothing. *)
Lemma documentProxy_set_same_tag σ r e c :
  own (fakeDocument (this σ)) !! attachDocProxySymbol = Some (Data (VRef r) true e c) ->
  documentProxy.set invoke getCreateElement attachDocProxySymbol (VRef r) σ = (Returns true, σ).
Proof.
  intros Hown.
  assert (Hread : read (fakeDocument (this σ)) attachDocProxySymbol = VRef r)
    by (unfold read, lookup_property; by rewrite Hown).
  unfold documentProxy.set. run_handler.
  rewrite Hread, strict_equal_refl_ref. rewrite andb_false_r.
  rewrite bool_decide_eq_false_2 by done. run_handler.
  rewrite (assign_same _ _ _ _ _ Hown). run_handler.
  rewrite with_fakeDocument_fakeDocument. by destruct σ.
Qed.

(** The write of a handle as the tag, whatever tag is kept. *)
Lemma documentProxy_set_tag_ref σ r :
  storable (fakeDocument (this σ)) attachDocProxySymbol = true ->
  storable (fakeDocument (this σ)) (KStr "createElement") = true ->
  exists σ1 e c,
    documentProxy.set invoke getCreateElement attachDocProxySymbol (VRef r) σ = (Returns true, σ1)
    /\ shared σ1 = shared σ
    /\ identity (this σ1) = identity (this σ)
    /\ own (fakeDocument (this σ1)) !! attachDocProxySymbol = Some (Data (VRef r) true e c)
    /\ (strict_equal (read (fakeDocument (this σ)) attachDocProxySymbol) (VRef r) = false ->
        read (fakeDocument (this σ1)) (KStr "createElement")
        = getTargetValue RawDocument (getCreateElement (VRef r))).
Proof.
  intros Htag Hce.
  destruct (strict_equal (read (fakeDocument (this σ)) attachDocProxySymbol) (VRef r)) eqn:Heq.
  - destruct (assign_storable_writable _ _ (VRef r) Htag) as (e & c & Ha).
    eexists _, e, c. split; [|split; [|split; [|split]]].
    + unfold documentProxy.set. run_handler.
      rewrite Heq, andb_false_r, bool_decide_eq_false_2 by done. run_handler.
      rewrite Ha. reflexivity.
    + done.
    + done.
    + cbn. apply lookup_insert_eq.
    + done.
  - destruct (documentProxy_set_new_tag σ (VRef r) Htag Hce Heq) as (e & c & e' & c' & Hset).
    eexists _, e, c. split; [exact Hset|]. split; [done|]. split; [done|]. split.
    + cbn. by rewrite lookup_insert_ne, lookup_insert_eq.
    + intros _. cbn [this fakeDocument with_fakeDocument].
      by rewrite read_with_own_insert_eq.
Qed.

Lemma document_is_no_self_reference node_env :
  is_self_reference node_env (KStr "document") = false.
Proof. unfold is_self_reference. cbn. by rewrite andb_false_r. Qed.

(** X13.  Reading document through the handle of an instance whose
    document target stores assignments to the tag key and to
    createElement returns the document proxy and leaves the module state
    as it is; afterwards the tag is the handle, and a second read of
    document changes nothing.  When the tag was another value before,
    createElement now is the element-creation function of this handle,
    bound to the document. *)
Theorem read_document_tags σ :
  storable (fakeDocument (this σ)) attachDocProxySymbol = true ->
  storable (fakeDocument (this σ)) (KStr "createElement") = true ->
  let handle := VRef (this_proxy (this σ)) in
  let documentHandle := VRef (this_documentProxy (this σ)) in
  exists σ1,
    proxy.get invoke getCreateElement (KStr "document") σ = (Returns documentHandle, σ1)
    /\ shared σ1 = shared σ
    /\ documentProxy.get attachDocProxySymbol σ1 = (Returns handle, σ1)
    /\ proxy.get invoke getCreateElement (KStr "document") σ1 = (Returns documentHandle, σ1)
    /\ (strict_equal (read (fakeDocument (this σ)) attachDocProxySymbol) handle = false ->
        documentProxy.get (KStr "createElement") σ1
        = (Returns (getTargetValue RawDocument (getCreateElement handle)), σ1)).
Proof.
  intros Htag Hce handle documentHandle.
  destruct (documentProxy_set_tag_ref σ (this_proxy (this σ)) Htag Hce)
    as (σ1 & e & c & Hset & Hshared & Hid & Hown & Hcreate).
  assert (Hget : forall σ0 σ0',
    documentProxy.set invoke getCreateElement attachDocProxySymbol
      (VRef (this_proxy (this σ0))) σ0 = (Returns true, σ0') ->
    proxy.get invoke getCreateElement (KStr "document") σ0
    = (Returns (VRef (this_documentProxy (this σ0'))), σ0')).
  { intros σ0 σ0' H0. unfold proxy.get.
    rewrite bool_decide_eq_false_2 by done. run_handler.
    rewrite document_is_no_self_reference, bool_decide_eq_false_2 by done.
    rewrite bool_decide_eq_true_2 by done. by rewrite H0. }
  assert (Hproxy : this_proxy (this σ1) = this_proxy (this σ))
    by (unfold this_proxy; by rewrite Hid).
  assert (Hdoc : this_documentProxy (this σ1) = this_documentProxy (this σ))
    by (unfold this_documentProxy; by rewrite Hid).
  exists σ1. split; [|split; [|split; [|split]]].
  - rewrite (Hget σ σ1 Hset). by rewrite Hdoc.
  - exact Hshared.
  - unfold documentProxy.get, gets.
    rewrite bool_decide_eq_false_2, bool_decide_eq_true_2 by done. cbn [orb].
    unfold read, lookup_property. by rewrite Hown.
  - rewrite (Hget σ1 σ1); [by rewrite Hdoc|].
    rewrite Hproxy. by eapply documentProxy_set_same_tag.
  - intros Hne. unfold documentProxy.get, gets.
    rewrite !bool_decide_eq_false_2, bool_decide_eq_true_2 by done. cbn [orb].
    by rewrite (Hcreate Hne).
Qed.


(** X15.  A write of createElement through a document proxy whose target
    stores assignments to that key returns true and leaves the module
    state and the tag as they are; afterwards createElement reads as
    [getTargetValue(rawDocument, v)], the value written bound to the
    document when it is a function. *)
Theorem documentProxy_createElement_override σ v :
  storable (fakeDocument (this σ)) (KStr "createElement") = true ->
  exists σ',
    documentProxy.set invoke getCreateElement (KStr "createElement") v σ = (Returns true, σ')
    /\ shared σ' = shared σ
    /\ documentProxy.get (KStr "createElement") σ'
       = (Returns (getTargetValue RawDocument v), σ')
    /\ fst (documentProxy.get attachDocProxySymbol σ')
       = fst (documentProxy.get attachDocProxySymbol σ).
Proof.
  intros Hst.
  destruct (assign_storable_writable _ _ (getTargetValue RawDocument v) Hst) as (e & c & Ha).
  eexists. split; [|split; [|split]].
  - unfold documentProxy.set. run_handler.
    rewrite bool_decide_eq_false_2 by done. cbn [andb].
    rewrite bool_decide_eq_true_2 by done. run_handler. rewrite Ha. reflexivity.
  - done.
  - unfold documentProxy.get, gets.
    rewrite !bool_decide_eq_false_2, bool_decide_eq_true_2 by done.
    cbn [orb this fakeDocument with_fakeDocument].
    by rewrite read_with_own_insert_eq.
  - unfold documentProxy.get, gets.
    rewrite bool_decide_eq_false_2, bool_decide_eq_true_2 by done.
    cbn [orb fst this fakeDocument with_fakeDocument].
    by rewrite read_with_own_insert_ne.
Qed.

End Document.

(** ** The descriptor handlers and the key listing *)

Lemma elem_of_uniq_seen seen l x :
  x ∈ uniq_seen seen l <-> x ∈ l /\ x ∉ seen.
Proof.
  revert seen. induction l as [|y l IH]; intros seen; cbn.
  - split; [by intros ?%elem_of_nil|by intros [?%elem_of_nil _]].
  - case_bool_decide as Hy.
    + rewrite IH, elem_of_cons. split; [tauto|].
      intros [[->|?] ?]; [done|tauto].
    + rewrite !elem_of_cons, IH, elem_of_cons. split.
      * intros [->|[? ?]]; [tauto|]. split; [tauto|]. tauto.
      * intros [[->|?] ?]; [tauto|].
        destruct (decide (x = y)) as [->|Hne]; [tauto|]. right. split; [done|].
        intros [?|?]; done.
Qed.

Lemma uniq_seen_ext s1 s2 l :
  (forall x, x ∈ s1 <-> x ∈ s2) -> uniq_seen s1 l = uniq_seen s2 l.
Proof.
  revert s1 s2. induction l as [|y l IH]; intros s1 s2 Hs; cbn; [done|].
  rewrite (bool_decide_ext _ _ (Hs y)).
  case_bool_decide; [by apply IH|]. f_equal. apply IH.
  intros x. rewrite !elem_of_cons. by rewrite Hs.
Qed.

Lemma uniq_seen_app seen l1 l2 :
  uniq_seen seen (l1 ++ l2) = (uniq_seen seen l1 ++ uniq_seen (l1 ++ seen) l2)%list.
Proof.
  revert seen. induction l1 as [|y l1 IH]; intros seen; cbn; [done|].
  case_bool_decide as Hy.
  - rewrite IH. f_equal. apply uniq_seen_ext.
    intros x. rewrite elem_of_cons, !elem_of_app. split; [tauto|].
    intros [->|?]; tauto.
  - cbn. f_equal. rewrite IH. f_equal. apply uniq_seen_ext.
    intros x. rewrite elem_of_cons, !elem_of_app, elem_of_cons. tauto.
Qed.

Lemma filter_not_elem_of_ext (s1 s2 l : list key) :
  (forall x, x ∈ l -> (x ∈ s1 <-> x ∈ s2)) ->
  filter (fun x => x ∉ s1) l = filter (fun x => x ∉ s2) l.
Proof.
  induction l as [|y l IH]; intros Hs; [done|].
  assert (Hy : y ∈ s1 <-> y ∈ s2) by (apply Hs; left).
  assert (Hl : filter (fun x => x ∉ s1) l = filter (fun x => x ∉ s2) l)
    by (apply IH; intros x Hx; apply Hs; by right).
  destruct (decide (y ∈ s1)) as [Hin|Hnotin].
  - rewrite !filter_cons_False by tauto. exact Hl.
  - rewrite !filter_cons_True by tauto. by rewrite Hl.
Qed.

Lemma uniq_seen_NoDup seen l :
  NoDup l -> uniq_seen seen l = filter (fun x => x ∉ seen) l.
Proof.
  revert seen. induction l as [|y l IH]; intros seen Hnd; [done|].
  cbn [uniq_seen]. apply NoDup_cons in Hnd as [Hy Hnd].
  case_bool_decide as Hseen.
  - rewrite filter_cons_False by tauto. by apply IH.
  - rewrite filter_cons_True by done. f_equal. rewrite IH by done.
    apply filter_not_elem_of_ext. intros x Hx.
    rewrite elem_of_cons. split; [|tauto]. intros [->|?]; done.
Qed.

Section DescriptorProperties.

Variable invoke : fn -> ref -> list value -> Env -> result value * Env.
Variable Reflect_ownKeys : object -> list key.
Variable attributes : Type.
Variable Reflect_defineProperty : object -> key -> attributes -> bool * object.

(** What the descriptor handler answers when both method lookups find
    the built-in. *)
Lemma getOwnPropertyDescriptor_builtin σ m p :
  hasOwnProperty_is_builtin (fakeWindow (this σ)) = true ->
  hasOwnProperty_is_builtin (rawWindow (env (shared σ))) = true ->
  getOwnPropertyDescriptor invoke m p σ
  = (Returns
       (match own (fakeWindow (this σ)) !! p with
        | Some d => (Some d, <[p := FromTarget]> m)
        | None =>
            match own (rawWindow (env (shared σ))) !! p with
            | Some d => (Some d, <[p := FromRawWindow]> m)
            | None => (None, m)
            end
        end), σ).
Proof.
  intros Hfw Hraw. unfold getOwnPropertyDescriptor, bind.
  rewrite fakeWindow_hasOwnProperty_builtin by exact Hfw.
  unfold owns at 1.
  destruct (own (fakeWindow (this σ)) !! p) as [d|] eqn:Hown.
  - rewrite bool_decide_eq_true_2 by eauto. cbn [truthy].
    unfold gets, ret. by rewrite Hown.
  - rewrite bool_decide_eq_false_2 by (by intros [? ?]). cbn [truthy].
    rewrite rawWindow_hasOwnProperty_builtin by exact Hraw.
    unfold owns.
    destruct (own (rawWindow (env (shared σ))) !! p) as [d|] eqn:Hrawown.
    + rewrite bool_decide_eq_true_2 by eauto. cbn [truthy].
      unfold gets, ret. by rewrite Hrawown.
    + by rewrite bool_decide_eq_false_2 by (by intros [? ?]).
Qed.

(** X16.  On a fresh instance, in the module state it was built in, the
    descriptor handler reports a descriptor that is not configurable, for
    a string key, only when the fake window owns the key with that very
    descriptor; and the descriptor it reports for a self reference is
    configurable.  The handler changes nothing. *)
Theorem fresh_descriptor_respects_target w i n m p :
  hasOwnProperty_is_builtin (fakeWindow (new i n w)) = true ->
  hasOwnProperty_is_builtin (rawWindow (env w)) = true ->
  is_name p = true ->
  exists od m',
    run (getOwnPropertyDescriptor invoke m p) w (new i n w)
    = (Returns (od, m'), {| shared := w; this := new i n w |})
    /\ (forall d, od = Some d -> configurable d = false ->
          own (fakeWindow (new i n w)) !! p = Some d)
    /\ (forall d, od = Some d -> is_self_reference (NODE_ENV w) p = true ->
          configurable d = true).
Proof.
  intros Hfw Hraw Hname. unfold run.
  rewrite getOwnPropertyDescriptor_builtin by done. cbn [shared this].
  pose proof (new_fakeWindow_own i n w p) as Hown.
  set (answer := match own (fakeWindow (new i n w)) !! p with
                 | Some d => (Some d, <[p := FromTarget]> m)
                 | None =>
                     match own (rawWindow (env w)) !! p with
                     | Some d => (Some d, <[p := FromRawWindow]> m)
                     | None => (None, m)
                     end
                 end).
  assert (Hmain : forall d, answer.1 = Some d -> configurable d = false ->
            own (fakeWindow (new i n w)) !! p = Some d).
  { subst answer. intros d Hd Hconf.
    destruct (own (fakeWindow (new i n w)) !! p) as [d'|] eqn:Hfwown; [exact Hd|].
    destruct (own (rawWindow (env w)) !! p) as [d0|]; [|discriminate].
    injection Hd as ->. by rewrite Hname, Hconf in Hown. }
  exists answer.1, answer.2. split; [by destruct answer|]. split; [exact Hmain|].
  intros d Hod Hself.
  destruct (configurable d) eqn:Hconf; [done|].
  destruct (new_self_reference_relaxed i n w p d Hself (Hmain d Hod Hconf)) as [Hc _].
  congruence.
Qed.

(** X17.  When both method lookups find the built-in, a definition that
    follows the description of a key goes where the description came
    from.  For a key the fake window owns, [Reflect.defineProperty] is
    applied to the fake window and the module state is left as it is; for
    a key that only the global object owns, it is applied to the global
    object and the instance is left as it is.  A key that neither owns
    has no descriptor and leaves the map as it was. *)
Theorem describe_then_define_routes σ m p a :
  hasOwnProperty_is_builtin (fakeWindow (this σ)) = true ->
  hasOwnProperty_is_builtin (rawWindow (env (shared σ))) = true ->
  let overlay := fakeWindow (this σ) in
  let global := rawWindow (env (shared σ)) in
  exists od m',
    getOwnPropertyDescriptor invoke m p σ = (Returns (od, m'), σ)
    /\ (is_Some (own overlay !! p) ->
        defineProperty attributes Reflect_defineProperty m' p a σ
        = (Returns (Reflect_defineProperty overlay p a).1,
           {| shared := shared σ;
              this := with_fakeWindow (Reflect_defineProperty overlay p a).2 (this σ) |}))
    /\ (own overlay !! p = None -> is_Some (own global !! p) ->
        defineProperty attributes Reflect_defineProperty m' p a σ
        = (Returns (Reflect_defineProperty global p a).1,
           {| shared :=
                with_env (with_rawWindow (Reflect_defineProperty global p a).2
                            (env (shared σ))) (shared σ);
              this := this σ |}))
    /\ (own overlay !! p = None -> own global !! p = None -> od = None /\ m' = m).
Proof.
  intros Hfw Hraw overlay global.
  rewrite getOwnPropertyDescriptor_builtin by done.
  fold overlay global.
  destruct (own overlay !! p) as [d|] eqn:Ht.
  - eexists _, _. split; [reflexivity|]. split; [|split]; [|by intros [=]|by intros [=]].
    intros _. unfold defineProperty. rewrite lookup_insert_eq. run_handler.
    fold overlay. by destruct (Reflect_defineProperty overlay p a).
  - destruct (own global !! p) as [d|] eqn:Hr.
    + eexists _, _. split; [reflexivity|]. split; [by intros [? [=]]|]. split; [|by intros _ [=]].
      intros _ _. unfold defineProperty. rewrite lookup_insert_eq. run_handler.
      fold global. by destruct (Reflect_defineProperty global p a).
    + eexists _, _. split; [reflexivity|].
      split; [by intros [? [=]]|]. split; [by intros _ [? [=]]|done].
Qed.

(** X18.  When [Reflect.ownKeys] lists the own keys of an object without
    repetition, the key listing of the handle is the keys of the global
    object, in their order, followed by the keys of the fake window that
    the global object does not own, in their order; no key comes twice,
    and nothing is changed. *)
Theorem ownKeys_lists_global_then_overlay σ :
  NoDup (Reflect_ownKeys (rawWindow (env (shared σ)))) ->
  NoDup (Reflect_ownKeys (fakeWindow (this σ))) ->
  let global := Reflect_ownKeys (rawWindow (env (shared σ))) in
  let overlay := Reflect_ownKeys (fakeWindow (this σ)) in
  ownKeys Reflect_ownKeys σ
  = (Returns (global ++ filter (fun k => k ∉ global) overlay)%list, σ)
  /\ NoDup (global ++ filter (fun k => k ∉ global) overlay)%list.
Proof.
  intros Hraw Hfw global overlay. split.
  - unfold ownKeys, gets, uniq. fold global overlay. do 2 f_equal.
    rewrite uniq_seen_app, !uniq_seen_NoDup by done. f_equal.
    + clear. induction global as [|x l IH]; [done|].
      rewrite filter_cons_True by (by intros ?%elem_of_nil). by rewrite IH.
    + apply filter_not_elem_of_ext. intros x _. by rewrite app_nil_r.
  - apply NoDup_app. split; [done|]. split; [|by apply NoDup_filter].
    intros x Hx [Hnot _]%list_elem_of_filter. done.
Qed.

(** X19.  When both method lookups find the built-in and
    [Reflect.ownKeys] lists the own keys of an object, a key is in the key
    listing of the handle exactly when the descriptor handler has a
    descriptor for it; and the has handler answers true for every key
    listed. *)
Theorem ownKeys_are_the_described σ m p :
  hasOwnProperty_is_builtin (fakeWindow (this σ)) = true ->
  hasOwnProperty_is_builtin (rawWindow (env (shared σ))) = true ->
  (forall o q, q ∈ Reflect_ownKeys o <-> is_Some (own o !! q)) ->
  exists ks,
    ownKeys Reflect_ownKeys σ = (Returns ks, σ)
    /\ (p ∈ ks <-> exists d m',
          getOwnPropertyDescriptor invoke m p σ = (Returns (Some d, m'), σ))
    /\ (p ∈ ks -> proxy.has p σ = (Returns true, σ)).
Proof.
  intros Hfw Hraw Hkeys. eexists. split; [reflexivity|].
  assert (Hin : p ∈ uniq (Reflect_ownKeys (rawWindow (env (shared σ)))
                          ++ Reflect_ownKeys (fakeWindow (this σ)))
                <-> is_Some (own (rawWindow (env (shared σ))) !! p)
                    \/ is_Some (own (fakeWindow (this σ)) !! p)).
  { unfold uniq. rewrite elem_of_uniq_seen, elem_of_app, !Hkeys.
    split; [tauto|]. intros H. split; [done|]. by intros ?%elem_of_nil. }
  split.
  - rewrite Hin, getOwnPropertyDescriptor_builtin by done.
    destruct (own (fakeWindow (this σ)) !! p) as [d|];
      [|destruct (own (rawWindow (env (shared σ))) !! p) as [d|]].
    + split; [eauto|]. intros _. right. eauto.
    + split; [eauto|]. intros _. left. eauto.
    + split; [by intros [[? [=]]|[? [=]]]|]. by intros (? & ? & [=]).
  - rewrite Hin. intros Hp. unfold proxy.has, gets. do 2 f_equal.
    assert (has_in p (fakeWindow (this σ)) || has_in p (rawWindow (env (shared σ))) = true)
      as Hor; [|by rewrite <- orb_assoc, Hor, orb_true_r].
    unfold has_in, lookup_property. apply orb_true_iff.
    destruct Hp as [[d Hd]|[d Hd]]; [right|left]; rewrite Hd;
      by apply bool_decide_eq_true_2.
Qed.

End DescriptorProperties.

(** ** More on a fresh instance *)

Section FreshHandlers.

Variable invoke : fn -> ref -> list value -> Env -> result value * Env.
Variable getCreateElement : value -> value.

(** X20.  Through a fresh instance the has handler answers true exactly
    for the keys of [unscopables], of the global object and of
    [Object.prototype]. *)
Theorem fresh_has w i n p :
  run (proxy.has p) w (new i n w)
  = (Returns (has_in p (unscopables w)
              || bool_decide (is_Some (objectPrototype (env w) !! p))
              || has_in p (rawWindow (env w))),
     {| shared := w; this := new i n w |}).
Proof.
  unfold run, proxy.has, gets. cbn [shared this]. do 2 f_equal.
  pose proof (new_fakeWindow_own i n w p) as Hown.
  pose proof (new_fields i n w) as (_ & _ & _ & Hinh & _).
  assert (Hfw : has_in p (fakeWindow (new i n w)) = true ->
                bool_decide (is_Some (objectPrototype (env w) !! p)) = true
                \/ has_in p (rawWindow (env w)) = true).
  { unfold has_in, lookup_property. rewrite Hown, Hinh.
    destruct (own (rawWindow (env w)) !! p) as [d|]; [|by left].
    intros _. right. by apply bool_decide_eq_true_2. }
  assert (Hproto : bool_decide (is_Some (objectPrototype (env w) !! p)) = true ->
                   has_in p (fakeWindow (new i n w)) = true).
  { unfold has_in, lookup_property. rewrite Hinh. intros [d Hd]%bool_decide_eq_true.
    apply bool_decide_eq_true_2. destruct (own (fakeWindow (new i n w)) !! p); eauto. }
  destruct (has_in p (unscopables w)); [done|]. cbn [orb].
  destruct (has_in p (fakeWindow (new i n w))) eqn:H1,
           (bool_decide (is_Some (objectPrototype (env w) !! p))) eqn:H2,
           (has_in p (rawWindow (env w))) eqn:H3; try done.
  - by destruct (Hfw eq_refl).
  - by discriminate (Hproto eq_refl).
Qed.

(** X21.  Through a fresh instance, while the method lookup on the fake
    window finds the built-in, the deletion of a string key that the
    global object owns with a descriptor that is not configurable, a self
    reference apart, raises a TypeError and changes nothing. *)
Theorem fresh_delete_snapshot_key_raises w i n p d :
  hasOwnProperty_is_builtin (fakeWindow (new i n w)) = true ->
  own (rawWindow (env w)) !! p = Some d ->
  is_name p = true ->
  configurable d = false ->
  is_self_reference (NODE_ENV w) p = false ->
  run (proxy.deleteProperty invoke p) w (new i n w)
  = (Throws TypeError, {| shared := w; this := new i n w |}).
Proof.
  intros Hb Hraw Hname Hconf Hself. apply bool_decide_eq_true in Hb.
  assert (Hown : own (fakeWindow (new i n w)) !! p = Some d).
  { rewrite new_fakeWindow_own, Hraw, Hname, Hconf. cbn.
    unfold copied_descriptor. by rewrite Hself. }
  unfold run, proxy.deleteProperty. run_handler. rewrite Hb. run_handler.
  unfold owns. rewrite Hown, bool_decide_eq_true_2 by eauto. run_handler.
  unfold remove. by rewrite Hown, Hconf.
Qed.

(** X22.  Through a fresh instance, a write to a self reference that the
    global object owns as a data property that cannot be reconfigured
    returns true, whether or not that property can be written; the read
    of the key that follows still returns the handle. *)
Theorem fresh_set_self_reference w i n p v u wr en :
  is_self_reference (NODE_ENV w) p = true ->
  own (rawWindow (env w)) !! p = Some (Data u wr en false) ->
  is_name p = true ->
  exists σ',
    run (proxy.set invoke p v) w (new i n w) = (Returns true, σ')
    /\ own (fakeWindow (this σ')) !! p = Some (Data v true en true)
    /\ proxy.get invoke getCreateElement p σ' = (Returns (VRef (Proxy i)), σ').
Proof.
  intros Hself Hraw Hname.
  assert (Hown : own (fakeWindow (new i n w)) !! p = Some (Data u true en true)).
  { rewrite new_fakeWindow_own, Hraw, Hname. cbn.
    unfold copied_descriptor. by rewrite Hself. }
  assert (Hassign : assign (fakeWindow (new i n w)) p v
                    = Stored (with_own (<[p := Data v true en true]>
                                          (own (fakeWindow (new i n w))))
                                (fakeWindow (new i n w)))).
  { unfold assign. by rewrite Hown. }
  eexists. split; [|split].
  - unfold run, proxy.set. run_handler.
    change (sandboxRunning (new i n w)) with true. run_handler.
    rewrite Hassign. reflexivity.
  - cbn [this fakeWindow with_updatedValueSet with_fakeWindow own with_own].
    apply lookup_insert_eq.
  - unfold proxy.get.
    assert (p <> KSym SymUnscopables) as Hp by (by destruct p).
    rewrite bool_decide_eq_false_2 by done. run_handler.
    cbn [NODE_ENV record_call]. by rewrite Hself.
Qed.

End FreshHandlers.

(** ** The further properties at concrete inputs *)

Lemma ownKeys_of_NoDup o : NoDup (ExampleBuiltins.ownKeys_of o).
Proof. apply NoDup_fst_map_to_list. Qed.

Lemma elem_of_ownKeys_of o q :
  q ∈ ExampleBuiltins.ownKeys_of o <-> is_Some (own o !! q).
Proof.
  unfold ExampleBuiltins.ownKeys_of. rewrite list_elem_of_fmap. split.
  - intros ([k d] & -> & Hin). apply elem_of_map_to_list in Hin. eauto.
  - intros [d Hd]. exists (q, d). split; [done|]. by apply elem_of_map_to_list.
Qed.

Lemma fresh_read_is_transparent_witness :
  is_reserved (NODE_ENV ExampleBuiltins.sealed_world) (KStr "assert") = false
  /\ objectPrototype (env ExampleBuiltins.sealed_world) !! KStr "assert" = None
  /\ fst (run (proxy.get Example.invoke Example.getCreateElement (KStr "assert"))
            ExampleBuiltins.sealed_world ExampleBuiltins.C)
     = Returns (VFun (Bound (Native 50) RawWindow))
  /\ fst (run (Proxy_Get Example.invoke Example.getCreateElement (KStr "assert"))
            ExampleBuiltins.sealed_world ExampleBuiltins.C)
     = Throws TypeError
  /\ fst (run (Proxy_Get Example.invoke Example.getCreateElement (KStr "NaN"))
            ExampleBuiltins.sealed_world ExampleBuiltins.C)
     = Returns VNaN
  /\ fst (run (Proxy_Get Example.invoke Example.getCreateElement (KStr "shared"))
            ExampleBuiltins.sealed_world ExampleBuiltins.C)
     = Returns (VNum 5).
Proof.
  destruct (fresh_read_is_transparent Example.invoke Example.getCreateElement
              ExampleBuiltins.sealed_world 3 "C" (KStr "assert"))
    as [Htrap Hsealed]; [vm_compute; reflexivity ..|].
  destruct (fresh_read_is_transparent Example.invoke Example.getCreateElement
              ExampleBuiltins.sealed_world 3 "C" (KStr "NaN"))
    as [_ HNaN]; [vm_compute; reflexivity ..|].
  destruct (fresh_read_is_transparent Example.invoke Example.getCreateElement
              ExampleBuiltins.sealed_world 3 "C" (KStr "shared"))
    as [_ Hshared]; [vm_compute; reflexivity ..|].
  split; [vm_compute; reflexivity|].
  split; [vm_compute; reflexivity|].
  split; [etrans; [exact Htrap|vm_compute; reflexivity]|].
  split; [etrans; [exact Hsealed|vm_compute; reflexivity]|].
  split; [etrans; [exact HNaN|vm_compute; reflexivity]|].
  etrans; [exact Hshared|vm_compute; reflexivity].
Defined.

Lemma fresh_set_read_only_raises_witness :
  run (proxy.set Example.invoke (KStr "NaN") (VNum 3)) Example.world Example.A
  = (Throws TypeError, Example.start).
Proof.
  apply (fresh_set_read_only_raises Example.invoke Example.world 1 "A"
           (KStr "NaN") (VNum 3) (Data VNaN false false false));
    [vm_compute; reflexivity | reflexivity | repeat split; vm_compute; reflexivity].
Defined.

Lemma fresh_set_calls_setter_on_fakeWindow_witness :
  run (proxy.set Example.invoke (KStr "location") (VStr "about:blank"))
    Example.world Example.A
  = match Example.invoke (Native 2) (FakeWindow 1) [VStr "about:blank"]
            (env Example.world) with
    | (Returns _, e') =>
        (Returns true,
         {| shared := record_call (InterceptSystemJsProps (KStr "location")
                                     (VStr "about:blank")) (with_env e' Example.world);
            this := with_updatedValueSet ({[KStr "location"]} ∪ ∅) Example.A |})
    | (Throws err, e') =>
        (Throws err, {| shared := with_env e' Example.world; this := Example.A |})
    end.
Proof.
  apply (fresh_set_calls_setter_on_fakeWindow Example.invoke Example.world 1 "A"
           (KStr "location") (VStr "about:blank") (Some (VRef (Heap 1))) (Native 2) true);
    vm_compute; reflexivity.
Defined.

Lemma set_then_owned_witness :
  exists σ' wr en cf,
    proxy.set Example.invoke (KStr "x") (VNum 0) Example.start = (Returns true, σ')
    /\ getOwnPropertyDescriptor Example.invoke ∅ (KStr "x") σ'
       = (Returns (Some (Data (VNum 0) wr en cf), <[KStr "x" := FromTarget]> ∅), σ')
    /\ hasOwnProperty Example.invoke (KStr "x") σ' = (Returns (VBool true), σ').
Proof.
  destruct (set_then_owned Example.invoke Example.start (KStr "x") (VNum 0) ∅)
    as (σ' & wr & en & cf & Hset & Hdesc & Hhas & _);
    [vm_compute; reflexivity | vm_compute; reflexivity | vm_compute; reflexivity | done |].
  exists σ', wr, en, cf. split; [exact Hset|]. split; [exact Hdesc|exact Hhas].
Defined.



Lemma inactive_then_active_resumes_witness :
  (inactive ;; active) Example.start
  = (Returns tt,
     {| shared :=
          record_call
            (ClearSystemJsProps (this_proxy (this Example.start))
               (activeSandboxCount (shared Example.start) - 1 =? 0)%Z)
            (shared Example.start);
        this := this Example.start |}).
Proof. apply inactive_then_active_resumes. reflexivity. Defined.

Lemma counter_is_minus_the_stopped_witness :
  let h' := lifecycle_run ExampleBuiltins.host [Deactivate 1; Deactivate 2] in
  activeSandboxCount (module_state h') = (- Z.of_nat (stopped h'))%Z
  /\ never_last (module_state h').
Proof.
  apply (counter_is_minus_the_stopped ExampleBuiltins.host [Deactivate 1; Deactivate 2]).
  - reflexivity.
  - reflexivity.
  - intros i s. unfold ExampleBuiltins.host. cbn [instances].
    rewrite lookup_insert. case_decide; [by intros [= <-]|].
    rewrite lookup_insert. case_decide; [by intros [= <-]|].
    by rewrite lookup_empty.
  - split; [|split; [|exact I]].
    + exists Example.A. split; [vm_compute; reflexivity|reflexivity].
    + exists Example.B. split; [vm_compute; reflexivity|reflexivity].
Defined.

Lemma documentProxy_tag_write_witness :
  exists σ',
    documentProxy.set Example.invoke Example.getCreateElement attachDocProxySymbol
      (VRef (Proxy 2)) Example.tagged = (Returns true, σ')
    /\ documentProxy.get (KStr "createElement") σ'
       = (Returns (getTargetValue RawDocument (Example.getCreateElement (VRef (Proxy 2)))), σ').
Proof.
  destruct (documentProxy_tag_write Example.invoke Example.getCreateElement
              Example.tagged (VRef (Proxy 2)))
    as (σ' & Hset & _ & _ & Hce); [vm_compute; reflexivity ..|].
  exists σ'. split; [exact Hset|exact Hce].
Defined.

Lemma read_document_tags_witness :
  exists σ1,
    proxy.get Example.invoke Example.getCreateElement (KStr "document") Example.start
      = (Returns (VRef (DocumentProxy 1)), σ1)
    /\ proxy.get Example.invoke Example.getCreateElement (KStr "document") σ1
      = (Returns (VRef (DocumentProxy 1)), σ1).
Proof.
  destruct (read_document_tags Example.invoke Example.getCreateElement Example.start)
    as (σ1 & Hget & _ & _ & Hagain & _); [vm_compute; reflexivity ..|].
  exists σ1. split; [exact Hget|exact Hagain].
Defined.


Lemma documentProxy_createElement_override_witness :
  exists σ',
    documentProxy.set Example.invoke Example.getCreateElement (KStr "createElement")
      (VFun (Native 42)) Example.tagged = (Returns true, σ')
    /\ documentProxy.get (KStr "createElement") σ'
       = (Returns (getTargetValue RawDocument (VFun (Native 42))), σ').
Proof.
  destruct (documentProxy_createElement_override Example.invoke Example.getCreateElement
              Example.tagged (VFun (Native 42)))
    as (σ' & Hset & _ & Hget & _); [vm_compute; reflexivity|].
  exists σ'. split; [exact Hset|exact Hget].
Defined.

Lemma fresh_descriptor_respects_target_witness :
  exists od m',
    run (getOwnPropertyDescriptor Example.invoke ∅ (KStr "document")) Example.world Example.A
    = (Returns (od, m'), Example.start)
    /\ (forall d, od = Some d -> configurable d = false ->
          own (fakeWindow Example.A) !! KStr "document" = Some d).
Proof.
  destruct (fresh_descriptor_respects_target Example.invoke Example.world 1 "A" ∅
              (KStr "document"))
    as (od & m' & Hrun & Hown & _); [vm_compute; reflexivity ..|].
  exists od, m'. split; [exact Hrun|exact Hown].
Defined.

Lemma describe_then_define_routes_witness :
  exists od m',
    getOwnPropertyDescriptor Example.invoke ∅ (KStr "shared") Example.start
      = (Returns (od, m'), Example.start)
    /\ defineProperty property ExampleBuiltins.defineProperty_of m' (KStr "shared")
         (Data (VNum 6) true true true) Example.start
       = (Returns (ExampleBuiltins.defineProperty_of (rawWindow (env (shared Example.start)))
                     (KStr "shared") (Data (VNum 6) true true true)).1,
          {| shared :=
               with_env
                 (with_rawWindow
                    (ExampleBuiltins.defineProperty_of (rawWindow (env (shared Example.start)))
                       (KStr "shared") (Data (VNum 6) true true true)).2
                    (env (shared Example.start)))
                 (shared Example.start);
             this := this Example.start |}).
Proof.
  destruct (describe_then_define_routes Example.invoke property
              ExampleBuiltins.defineProperty_of Example.start ∅ (KStr "shared")
              (Data (VNum 6) true true true))
    as (od & m' & Hdesc & _ & Hraw & _); [vm_compute; reflexivity ..|].
  exists od, m'. split; [exact Hdesc|].
  apply Hraw; [vm_compute; reflexivity|].
  eexists. vm_compute. reflexivity.
Defined.

Lemma ownKeys_lists_global_then_overlay_witness :
  let global := ExampleBuiltins.ownKeys_of (rawWindow (env (shared ExampleBuiltins.written))) in
  let overlay := ExampleBuiltins.ownKeys_of (fakeWindow (this ExampleBuiltins.written)) in
  ownKeys ExampleBuiltins.ownKeys_of ExampleBuiltins.written
  = (Returns (global ++ filter (fun k => k ∉ global) overlay)%list, ExampleBuiltins.written).
Proof.
  apply (ownKeys_lists_global_then_overlay ExampleBuiltins.ownKeys_of ExampleBuiltins.written);
    apply ownKeys_of_NoDup.
Defined.

Lemma ownKeys_are_the_described_witness :
  exists ks,
    ownKeys ExampleBuiltins.ownKeys_of ExampleBuiltins.written
      = (Returns ks, ExampleBuiltins.written)
    /\ (KStr "x" ∈ ks <-> exists d m',
          getOwnPropertyDescriptor Example.invoke ∅ (KStr "x") ExampleBuiltins.written
          = (Returns (Some d, m'), ExampleBuiltins.written)).
Proof.
  destruct (ownKeys_are_the_described Example.invoke ExampleBuiltins.ownKeys_of
              ExampleBuiltins.written ∅ (KStr "x"))
    as (ks & Hkeys & Hiff & _);
    [vm_compute; reflexivity | vm_compute; reflexivity | apply elem_of_ownKeys_of |].
  exists ks. split; [exact Hkeys|exact Hiff].
Defined.

Lemma fresh_delete_snapshot_key_raises_witness :
  run (proxy.deleteProperty Example.invoke (KStr "document")) Example.world Example.A
  = (Throws TypeError, Example.start).
Proof.
  apply (fresh_delete_snapshot_key_raises Example.invoke Example.world 1 "A"
           (KStr "document") (Accessor (Some (VRef RawDocument)) None true false));
    vm_compute; reflexivity.
Defined.

Lemma fresh_set_self_reference_witness :
  exists σ',
    run (proxy.set Example.invoke (KStr "top") (VNum 1)) Example.world Example.A
      = (Returns true, σ')
    /\ proxy.get Example.invoke Example.getCreateElement (KStr "top") σ'
       = (Returns (VRef (Proxy 1)), σ').
Proof.
  destruct (fresh_set_self_reference Example.invoke Example.getCreateElement
              Example.world 1 "A" (KStr "top") (VNum 1) (VRef RawWindow) false true)
    as (σ' & Hset & _ & Hget); [vm_compute; reflexivity ..|].
  exists σ'. split; [exact Hset|exact Hget].
Defined.
